(** * Spaceship.dev MCP server: a shallow embedding of [src/index.ts]

  The server is a thin adapter: four request handlers (list-resources,
  read-resource, list-tools, call-tool) on top of [SpaceshipClient], a
  wrapper of eight HTTP calls.  Everything the handlers do is visible in
  (1) the value they return or throw and (2) the HTTP requests they hand
  to axios, so the embedding is a writer-and-exception monad over a
  trace of events.

  What the source takes from its platform is modelled next to it:
  ECMAScript values and the conversions [String(x)], [Number(x)], [!x],
  [x || y], template literals, [JSON.stringify]; and the WHATWG URL
  parser behind [new URL(s)].  Strings are the UTF-8 bytes of the
  ECMAScript strings. *)

From Stdlib Require Import String Ascii List ZArith Bool Lia DecimalString.
From Stdlib Require Import Floats.SpecFloat.
Import ListNotations.

Local Open Scope list_scope.
Local Open Scope string_scope.

(** ** Strings: the helpers the source relies on *)

Module Str.

Fixpoint all (p : ascii -> bool) (s : string) : bool :=
  match s with
  | EmptyString => true
  | String c r => p c && all p r
  end.

Fixpoint filter (p : ascii -> bool) (s : string) : string :=
  match s with
  | EmptyString => EmptyString
  | String c r => if p c then String c (filter p r) else filter p r
  end.

(** [break p s]: the longest prefix without a character satisfying [p],
    and what follows it (starting at that character). *)
Fixpoint break (p : ascii -> bool) (s : string) : string * string :=
  match s with
  | EmptyString => (EmptyString, EmptyString)
  | String c r =>
      if p c then (EmptyString, s)
      else let '(a, b) := break p r in (String c a, b)
  end.

(** [String.prototype.split] with a one-character separator; the empty
    string splits into one empty piece. *)
Fixpoint split (sep : ascii) (s : string) : list string :=
  match s with
  | EmptyString => [EmptyString]
  | String c r =>
      if Ascii.eqb c sep then EmptyString :: split sep r
      else match split sep r with
           | h :: t => String c h :: t
           | [] => [String c EmptyString]
           end
  end.

(** [Array.prototype.join] on strings. *)
Fixpoint join (sep : string) (l : list string) : string :=
  match l with
  | [] => EmptyString
  | [x] => x
  | x :: r => x ++ sep ++ join sep r
  end.

Definition is_empty (s : string) : bool :=
  match s with EmptyString => true | _ => false end.

Fixpoint last (s : string) : option ascii :=
  match s with
  | EmptyString => None
  | String c EmptyString => Some c
  | String _ r => last r
  end.

(** What follows the last occurrence of [c], if [c] occurs. *)
Fixpoint after_last (c : ascii) (s : string) : option string :=
  match s with
  | EmptyString => None
  | String x r =>
      match after_last c r with
      | Some t => Some t
      | None => if Ascii.eqb x c then Some r else None
      end
  end.

Fixpoint drop_while (p : ascii -> bool) (s : string) : string :=
  match s with
  | EmptyString => EmptyString
  | String c r => if p c then drop_while p r else s
  end.

Fixpoint rev_onto (s acc : string) : string :=
  match s with
  | EmptyString => acc
  | String c r => rev_onto r (String c acc)
  end.

Definition rev (s : string) : string := rev_onto s EmptyString.

Definition trim (p : ascii -> bool) (s : string) : string :=
  rev (drop_while p (rev (drop_while p s))).

Definition hex_digit (n : N) : ascii :=
  ascii_of_N (if (n <? 10)%N then 48 + n else 55 + n).

Definition hex_digit_lower (n : N) : ascii :=
  ascii_of_N (if (n <? 10)%N then 48 + n else 87 + n).

End Str.

(** ** ECMAScript values *)

Module JS.

(** An ECMAScript Number is an IEEE 754 binary64 value. *)
Definition number : Type := spec_float.

Definition number_of_Z (z : Z) : number := binary_normalize 53 1024 z 0 false.

Definition NaN : number := S754_nan.

(** The values a JSON document can denote, and [undefined]. *)
#[warnings="-register-all"]
Inductive value : Type :=
| JUndefined
| JNull
| JBool (b : bool)
| JNumber (n : number)
| JString (s : string)
| JArray (items : list value)
| JObject (props : list (string * value)).

(** [ErrorCode] of the MCP SDK, the members the server uses. *)
Inductive ErrorCode : Type :=
| InvalidRequest
| MethodNotFound
| InvalidParams
| InternalError.

(** What a [throw] can carry in this program. *)
#[warnings="-register-all"]
Inductive Thrown : Type :=
| McpError (code : ErrorCode) (message : string)
| TypeError (message : string)
| AxiosError (response : option value) (message : string)
| OtherError (message : string).

Inductive completion (A : Type) : Type :=
| Normal (a : A)
| Throw (e : Thrown).
Arguments Normal {A} a.
Arguments Throw {A} e.

Definition and_then {A B} (c : completion A) (k : A -> completion B)
  : completion B :=
  match c with
  | Normal a => k a
  | Throw e => Throw e
  end.

Fixpoint lookup (k : string) (props : list (string * value)) : option value :=
  match props with
  | [] => None
  | (k', v) :: r => if String.eqb k k' then Some v else lookup k r
  end.

Definition has_own (k : string) (props : list (string * value)) : bool :=
  match lookup k props with Some _ => true | None => false end.

(** [v.k] for a key [k] that no prototype defines (every key the source
    reads is one). *)
Definition Get (v : value) (k : string) : completion value :=
  match v with
  | JUndefined =>
      Throw (TypeError ("Cannot read properties of undefined (reading '" ++ k ++ "')"))
  | JNull =>
      Throw (TypeError ("Cannot read properties of null (reading '" ++ k ++ "')"))
  | JObject props =>
      Normal (match lookup k props with Some x => x | None => JUndefined end)
  | _ => Normal JUndefined
  end.

(** [v?.k] *)
Definition OptGet (v : value) (k : string) : value :=
  match v with
  | JObject props => match lookup k props with Some x => x | None => JUndefined end
  | _ => JUndefined
  end.

Definition ToBoolean (v : value) : bool :=
  match v with
  | JUndefined | JNull => false
  | JBool b => b
  | JNumber (S754_zero _) | JNumber S754_nan => false
  | JNumber _ => true
  | JString s => negb (Str.is_empty s)
  | JArray _ | JObject _ => true
  end.

(** [a || b] *)
Definition or_else (a b : value) : value := if ToBoolean a then a else b.

(** [Array.prototype.join(",")], given the conversion of one element. *)
Section JoinValues.

Variable element : value -> completion string.

Fixpoint join_values (l : list value) : completion string :=
  match l with
  | [] => Normal EmptyString
  | [x] => element x
  | x :: r =>
      and_then (element x) (fun sx =>
      and_then (join_values r) (fun sr => Normal (sx ++ "," ++ sr)))
  end.

End JoinValues.

Definition cannot_convert : Thrown :=
  TypeError "Cannot convert object to primitive value".

Section Conversions.

(** The two numeric conversions of the language are parameters. *)
Variable NumberToString : number -> string.
Variable StringToNumber : string -> number.

(** [ToString].  An array goes through [join(",")]; a plain object
    answers ["[object Object]"] unless an own [toString] property, which
    in a JSON value is never callable, hides the inherited method. *)
Fixpoint ToString (v : value) : completion string :=
  match v with
  | JUndefined => Normal "undefined"
  | JNull => Normal "null"
  | JBool true => Normal "true"
  | JBool false => Normal "false"
  | JNumber n => Normal (NumberToString n)
  | JString s => Normal s
  | JArray items =>
      join_values
        (fun x => match x with
                  | JUndefined | JNull => Normal EmptyString
                  | _ => ToString x
                  end)
        items
  | JObject props =>
      if has_own "toString" props then Throw cannot_convert
      else Normal "[object Object]"
  end.

(** [ToNumber] *)
Definition ToNumber (v : value) : completion number :=
  match v with
  | JUndefined => Normal NaN
  | JNull => Normal (S754_zero false)
  | JBool true => Normal (number_of_Z 1)
  | JBool false => Normal (S754_zero false)
  | JNumber n => Normal n
  | JString s => Normal (StringToNumber s)
  | JArray _ | JObject _ =>
      and_then (ToString v) (fun s => Normal (StringToNumber s))
  end.

Definition dquote : ascii := ascii_of_N 34.

(** [QuoteJSONString] *)
Definition quote_char (c : ascii) : string :=
  let n := N_of_ascii c in
  if (n =? 34)%N then String "\" (String dquote EmptyString)
  else if (n =? 92)%N then "\\"
  else if (n =? 8)%N then "\b"
  else if (n =? 12)%N then "\f"
  else if (n =? 10)%N then "\n"
  else if (n =? 13)%N then "\r"
  else if (n =? 9)%N then "\t"
  else if (n <? 32)%N then
    "\u00" ++ String (Str.hex_digit_lower (n / 16)) (String (Str.hex_digit_lower (n mod 16)) EmptyString)
  else String c EmptyString.

Fixpoint quote_body (s : string) : string :=
  match s with
  | EmptyString => EmptyString
  | String c r => quote_char c ++ quote_body r
  end.

Definition Quote (s : string) : string :=
  String dquote (quote_body s ++ String dquote EmptyString).

Definition newline : string := String (ascii_of_N 10) EmptyString.

Definition is_finite (n : number) : bool :=
  match n with
  | S754_zero _ | S754_finite _ _ _ => true
  | _ => false
  end.

(** [JSON.stringify(v, null, 2)] with the current indentation;
    [None] is the [undefined] it answers for [undefined]. *)
Fixpoint serialize (indent : string) (v : value) : option string :=
  match v with
  | JUndefined => None
  | JNull => Some "null"
  | JBool true => Some "true"
  | JBool false => Some "false"
  | JNumber n => Some (if is_finite n then NumberToString n else "null")
  | JString s => Some (Quote s)
  | JArray items =>
      let inner := indent ++ "  " in
      match items with
      | [] => Some "[]"
      | _ =>
          let parts :=
            map (fun x => match serialize inner x with
                          | Some s => s
                          | None => "null"
                          end) items in
          Some ("[" ++ newline ++ inner
                    ++ Str.join ("," ++ newline ++ inner) parts
                    ++ newline ++ indent ++ "]")
      end
  | JObject props =>
      let inner := indent ++ "  " in
      let parts :=
        flat_map (fun kv => match serialize inner (snd kv) with
                            | Some s => [Quote (fst kv) ++ ": " ++ s]
                            | None => []
                            end) props in
      match parts with
      | [] => Some "{}"
      | _ =>
          Some ("{" ++ newline ++ inner
                    ++ Str.join ("," ++ newline ++ inner) parts
                    ++ newline ++ indent ++ "}")
      end
  end.

Definition JSON_stringify (v : value) : option string := serialize EmptyString v.

End Conversions.

End JS.

(** ** [new URL(input)]: the WHATWG basic URL parser, without a base URL

    The server reads two getters of the parsed URL, [protocol] and
    [pathname].  The parser is written out for the schemes that are not
    special, [spaceship] among them; what follows the colon of a special
    scheme ([http], [https], [ws], [wss], [ftp], [file]) and the inside of
    a bracketed IPv6 host are left to two parameters. *)

Module URL.

Inductive path : Type :=
| Opaque (s : string)
| Segments (l : list string).

Record t : Type := { scheme : string; host : option string; path_of : path }.

Definition code (c : ascii) : N := N_of_ascii c.

Definition has_code (n : N) (c : ascii) : bool := (code c =? n)%N.

Definition slash : ascii := ascii_of_N 47.

Definition is_c0_control_or_space (c : ascii) : bool := (code c <=? 32)%N.

Definition is_tab_or_newline (c : ascii) : bool := has_code 9 c || has_code 10 c || has_code 13 c.

Definition is_upper (c : ascii) : bool := (65 <=? code c)%N && (code c <=? 90)%N.

Definition is_lower (c : ascii) : bool := (97 <=? code c)%N && (code c <=? 122)%N.

Definition is_alpha (c : ascii) : bool := is_upper c || is_lower c.

Definition is_digit (c : ascii) : bool := (48 <=? code c)%N && (code c <=? 57)%N.

Definition is_scheme_char (c : ascii) : bool :=
  is_alpha c || is_digit c || has_code 43 c || has_code 45 c || has_code 46 c.

Definition lower (c : ascii) : ascii :=
  if is_upper c then ascii_of_N (code c + 32) else c.

Fixpoint lowercase (s : string) : string :=
  match s with
  | EmptyString => EmptyString
  | String c r => String (lower c) (lowercase r)
  end.

Definition is_special (scheme : string) : bool :=
  existsb (String.eqb scheme) ["ftp"; "file"; "http"; "https"; "ws"; "wss"].

(** Percent-encode sets *)
Definition c0_control_set (c : ascii) : bool := (code c <? 32)%N || (126 <? code c)%N.

Definition query_set (c : ascii) : bool :=
  c0_control_set c || has_code 32 c || has_code 34 c || has_code 35 c || has_code 60 c || has_code 62 c.

Definition path_set (c : ascii) : bool :=
  query_set c || has_code 63 c || has_code 94 c || has_code 96 c || has_code 123 c || has_code 125 c.

Definition percent_encode_char (set : ascii -> bool) (c : ascii) : string :=
  if set c
  then String (ascii_of_N 37)
         (String (Str.hex_digit (code c / 16))
            (String (Str.hex_digit (code c mod 16)) EmptyString))
  else String c EmptyString.

Fixpoint percent_encode (set : ascii -> bool) (s : string) : string :=
  match s with
  | EmptyString => EmptyString
  | String c r => percent_encode_char set c ++ percent_encode set r
  end.

Definition is_forbidden_host_code_point (c : ascii) : bool :=
  existsb (fun n => has_code n c) [0; 9; 10; 13; 32; 35; 47; 58; 60; 62; 63; 64; 91; 92; 93; 94; 124]%N.

(** Port state: decimal digits only, and at most 65535. *)
Fixpoint decimal (acc : N) (s : string) : N :=
  match s with
  | EmptyString => acc
  | String c r => decimal (10 * acc + (code c - 48)) r
  end.

Definition port_ok (p : string) : bool :=
  Str.all is_digit p && (decimal 0 p <=? 65535)%N.

(** Host state: the host ends at the first colon outside brackets. *)
Fixpoint split_host (inside : bool) (s : string) : string * option string :=
  match s with
  | EmptyString => (EmptyString, None)
  | String c r =>
      if has_code 58 c && negb inside then (EmptyString, Some r)
      else
        let inside' := if has_code 91 c then true else if has_code 93 c then false else inside in
        let '(h, p) := split_host inside' r in (String c h, p)
  end.

Definition is_single_dot (b : string) : bool :=
  let l := lowercase b in String.eqb l "." || String.eqb l "%2e".

Definition is_double_dot (b : string) : bool :=
  let l := lowercase b in
  String.eqb l ".." || String.eqb l ".%2e" || String.eqb l "%2e." || String.eqb l "%2e%2e".

(** Shorten a path (the scheme is not [file]). *)
Definition shorten (p : list string) : list string := removelast p.

(** Path state over the segments of the input: every segment but the last
    is followed by a slash, the last by the end of the path. *)
Fixpoint path_segments (p : list string) (segs : list string) : list string :=
  match segs with
  | [] => p
  | [b] =>
      let b := percent_encode path_set b in
      if is_double_dot b then (shorten p ++ [EmptyString])%list
      else if is_single_dot b then p ++ [EmptyString]
      else p ++ [b]
  | b :: rest =>
      let b := percent_encode path_set b in
      path_segments
        (if is_double_dot b then shorten p
         else if is_single_dot b then p
         else p ++ [b])
        rest
  end.

Definition is_query_or_fragment_start (c : ascii) : bool := has_code 63 c || has_code 35 c.

Definition is_authority_end (c : ascii) : bool := has_code 47 c || has_code 63 c || has_code 35 c.

(** Path state from its first character: the path ends at [?] or [#]. *)
Definition path_state (s : string) : list string :=
  path_segments [] (Str.split slash (fst (Str.break is_query_or_fragment_start s))).

(** Path start state: what follows the authority is empty or starts with
    one of [/], [?], [#]. *)
Definition path_start_state (s : string) : list string :=
  match s with
  | String c r => if has_code 47 c then path_state r else []
  | EmptyString => []
  end.

(** Opaque path state: a space is encoded only right before [?] or [#]. *)
Fixpoint opaque_path_state (s : string) : string :=
  match s with
  | EmptyString => EmptyString
  | String c r =>
      if is_query_or_fragment_start c then EmptyString
      else if has_code 32 c then
        match r with
        | String d _ =>
            (if is_query_or_fragment_start d then "%20" else " ") ++ opaque_path_state r
        | EmptyString => " "
        end
      else percent_encode_char c0_control_set c ++ opaque_path_state r
  end.

Section Parser.

(** Host and path of a URL with a special scheme, from the scheme and what
    follows its colon; and the IPv6 parser with its serializer. *)
Variable special_scheme_state : string -> string -> option (option string * path).
Variable ipv6_parser : string -> option string.

(** Host parser for a scheme that is not special (an opaque host). *)
Definition host_parser (h : string) : option string :=
  match h with
  | String c r =>
      if has_code 91 c then
        match Str.last h with
        | Some d =>
            if has_code 93 d then
              match ipv6_parser (Str.rev (match Str.rev r with
                                          | String _ x => x
                                          | EmptyString => EmptyString
                                          end)) with
              | Some a => Some ("[" ++ a ++ "]")
              | None => None
              end
            else None
        | None => None
        end
      else if Str.all (fun x => negb (is_forbidden_host_code_point x)) h
           then Some (percent_encode c0_control_set h) else None
  | EmptyString => Some EmptyString
  end.

(** Authority state and host state: credentials end at the last [@]. *)
Definition authority (auth : string) : option string :=
  let hostport :=
    match Str.after_last (ascii_of_N 64) auth with
    | Some hp => if Str.is_empty hp then None else Some hp
    | None => Some auth
    end in
  match hostport with
  | None => None
  | Some hp =>
      match split_host false hp with
      | (h, None) => host_parser h
      | (h, Some port) =>
          if Str.is_empty h then None
          else if port_ok port then host_parser h else None
      end
  end.

Definition authority_state (scheme r : string) : option t :=
  let '(auth, rest) := Str.break is_authority_end r in
  match authority auth with
  | Some h => Some {| scheme := scheme; host := Some h;
                      path_of := Segments (path_start_state rest) |}
  | None => None
  end.

(** After the colon of a scheme that is not special. *)
Definition after_scheme (scheme rest : string) : option t :=
  match rest with
  | String c r =>
      if has_code 47 c then
        match r with
        | String d r' =>
            if has_code 47 d then authority_state scheme r'
            else Some {| scheme := scheme; host := None; path_of := Segments (path_state r) |}
        | EmptyString =>
            Some {| scheme := scheme; host := None; path_of := Segments (path_state r) |}
        end
      else Some {| scheme := scheme; host := None; path_of := Opaque (opaque_path_state rest) |}
  | EmptyString =>
      Some {| scheme := scheme; host := None; path_of := Opaque EmptyString |}
  end.

(** [new URL(input)]; [None] is the [TypeError] it throws. *)
Definition parse (input : string) : option t :=
  let input :=
    Str.filter (fun c => negb (is_tab_or_newline c))
      (Str.trim is_c0_control_or_space input) in
  match input with
  | String c _ =>
      if is_alpha c then
        let '(s, rest) := Str.break (fun x => negb (is_scheme_char x)) input in
        match rest with
        | String d rest' =>
            if has_code 58 d then
              let scheme := lowercase s in
              if is_special scheme then
                match special_scheme_state scheme rest' with
                | Some (h, p) => Some {| scheme := scheme; host := h; path_of := p |}
                | None => None
                end
              else after_scheme scheme rest'
            else None
        | EmptyString => None
        end
      else None
  | EmptyString => None
  end.

End Parser.

(** The getters *)
Definition protocol (u : t) : string := scheme u ++ ":".

Definition pathname (u : t) : string :=
  match path_of u with
  | Opaque s => s
  | Segments l => Str.join EmptyString (map (String slash) l)
  end.

End URL.

(** ** Effects: the HTTP requests handed to axios, the lines written by
    [console.error], and exceptions *)

Module Eff.
Import JS.

Inductive Method : Type := GET | POST | PUT.

(** One call of [axiosInstance.get], [.post] or [.put]: the URL under the
    base URL, the query parameters and the body. *)
Record HttpRequest : Type :=
  { method : Method;
    url : string;
    params : list (string * value);
    data : value }.

(** How the promise of one call settles: with [response.data], with an
    error that [axios.isAxiosError] recognises (carrying
    [error.response?.data] and [error.message]), or with anything else. *)
#[warnings="-register-all"]
Inductive Settled : Type :=
| Resolved (response_data : value)
| RejectedAxios (response : option value) (message : string)
| RejectedOther (message : string).

(** A handler makes at most one call, so the upstream is a function from
    the call to the way it settles. *)
Definition Transport : Type := HttpRequest -> Settled.

#[warnings="-register-all"]
Inductive Event : Type :=
| Http (r : HttpRequest)
| ConsoleError (line : string) (e : Thrown).

Definition M (A : Type) : Type := list Event * completion A.

Definition ret {A} (a : A) : M A := ([], Normal a).

Definition throw {A} (e : Thrown) : M A := ([], Throw e).

Definition bind {A B} (m : M A) (k : A -> M B) : M B :=
  match m with
  | (t, Normal a) => let '(t', r) := k a in ((t ++ t')%list, r)
  | (t, Throw e) => (t, Throw e)
  end.

(** [try { m } catch (error) { h error }] *)
Definition try_catch {A} (m : M A) (h : Thrown -> M A) : M A :=
  match m with
  | (t, Throw e) => let '(t', r) := h e in ((t ++ t')%list, r)
  | (t, Normal a) => (t, Normal a)
  end.

Definition lift {A} (c : completion A) : M A := ([], c).

Definition console_error (line : string) (e : Thrown) : M unit :=
  ([ConsoleError line e], Normal tt).

Definition await (axios : Transport) (r : HttpRequest) : M value :=
  ([Http r],
   match axios r with
   | Resolved d => Normal d
   | RejectedAxios response message => Throw (AxiosError response message)
   | RejectedOther message => Throw (OtherError message)
   end).

(** The HTTP requests of a trace, in order. *)
Fixpoint upstream_calls (t : list Event) : list HttpRequest :=
  match t with
  | [] => []
  | Http r :: rest => r :: upstream_calls rest
  | ConsoleError _ _ :: rest => upstream_calls rest
  end.

Definition trace {A} (m : M A) : list Event := fst m.

Definition outcome {A} (m : M A) : completion A := snd m.

End Eff.

Declare Scope eff_scope.
Delimit Scope eff_scope with eff.
Notation "x <- m ;; k" := (Eff.bind m (fun x => k))
  (at level 61, m at next level, right associativity) : eff_scope.
Notation "m ;;; k" := (Eff.bind m (fun _ => k))
  (at level 61, right associativity) : eff_scope.

(** What the program takes from Node.js. *)
Record Platform : Type :=
  { NumberToString : JS.number -> string;
    StringToNumber : string -> JS.number;
    special_scheme_state : string -> string -> option (option string * URL.path);
    ipv6_parser : string -> option string }.

(** ** [class SpaceshipClient] *)

Module SpaceshipClient.
Import JS Eff.
Local Open Scope eff_scope.

Section Client.

Variable P : Platform.
Variable axios : Transport.

(** A template literal hole, [`${v}`]. *)
Definition interpolate (v : value) : M string := lift (ToString (NumberToString P) v).

(** The [catch (error)] block that every method repeats. *)
Definition catch_block {A} (error : Thrown) : M A :=
  match error with
  | AxiosError response message =>
      let upstream :=
        match response with
        | Some response_data => OptGet response_data "message"
        | None => JUndefined
        end in
      s <- interpolate (or_else upstream (JString message)) ;;
      throw (McpError InternalError ("Spaceship API error: " ++ s))
  | _ => throw error
  end.

Definition get (url : string) : M value :=
  await axios {| method := GET; url := url; params := []; data := JUndefined |}.

Definition ten : number := Eval cbv in number_of_Z 10.

Definition zero : number := Eval cbv in number_of_Z 0.

(** [getDomains(take = 10, skip = 0)]: [None] is an argument left out. *)
Definition getDomains (take skip : option number) : M value :=
  let take := match take with Some n => n | None => ten end in
  let skip := match skip with Some n => n | None => zero end in
  try_catch
    (response_data <-
       await axios {| method := GET; url := "/domains";
                      params := [("take", JNumber take); ("skip", JNumber skip)];
                      data := JUndefined |} ;;
     lift (Get response_data "domains"))
    catch_block.

Definition checkDomainAvailability (domain : value) : M value :=
  try_catch
    (d <- interpolate domain ;;
     get ("/domains/availability/" ++ d))
    catch_block.

Definition getDomainInfo (domain : value) : M value :=
  try_catch
    (d <- interpolate domain ;;
     get ("/domains/" ++ d))
    catch_block.

Definition registerDomain (domain contactId : value) : M value :=
  try_catch
    (await axios {| method := POST; url := "/domains"; params := [];
                    data := JObject [("domain", domain); ("contactId", contactId)] |})
    catch_block.

Definition getDnsRecords (domain : value) : M value :=
  try_catch
    (d <- interpolate domain ;;
     response_data <- get ("/domains/" ++ d ++ "/dns") ;;
     lift (Get response_data "records"))
    catch_block.

Definition updateDnsRecords (domain records : value) : M value :=
  try_catch
    (d <- interpolate domain ;;
     await axios {| method := PUT; url := "/domains/" ++ d ++ "/dns"; params := [];
                    data := JObject [("records", records)] |})
    catch_block.

Definition getContact (contactId : value) : M value :=
  try_catch
    (c <- interpolate contactId ;;
     get ("/contacts/" ++ c))
    catch_block.

Definition getAsyncOperation (operationId : value) : M value :=
  try_catch
    (o <- interpolate operationId ;;
     get ("/operations/" ++ o))
    catch_block.

End Client.

End SpaceshipClient.

(** ** The request handlers of the server *)

Module Resource.
Record t : Type :=
  { uri : string; mimeType : string; name : JS.value; description : string }.
End Resource.

Module ResourceContents.
Record t : Type := { uri : string; mimeType : string; text : option string }.
End ResourceContents.

Module Content.
Record t : Type := { type : string; text : option string }.
End Content.

Module Property.
Record t : Type := { type : string; description : string }.
End Property.

Module Tool.
Record InputSchema : Type :=
  { schema_type : string;
    properties : list (string * Property.t);
    required : option (list string) }.
Record t : Type := { name : string; description : string; inputSchema : InputSchema }.
End Tool.

Module Server.
Import JS Eff.
Local Open Scope eff_scope.

Section Handlers.

Variable P : Platform.
Variable axios : Transport.

Definition interpolate (v : value) : M string := SpaceshipClient.interpolate P v.

(** [String(v)] and [Number(v)] *)
Definition String_ (v : value) : M string := lift (ToString (NumberToString P) v).

Definition Number_ (v : value) : M number :=
  lift (ToNumber (NumberToString P) (StringToNumber P) v).

(** The arrow function mapped over the domains by the list-resources handler. *)
Definition resource_of (domain : value) : M Resource.t :=
  n <- lift (Get domain "name") ;;
  uri_name <- interpolate n ;;
  description_name <- interpolate n ;;
  status <- lift (Get domain "status") ;;
  description_status <- interpolate status ;;
  expiresAt <- lift (Get domain "expiresAt") ;;
  description_expires <- interpolate expiresAt ;;
  ret {| Resource.uri := "spaceship://domains/" ++ uri_name;
         Resource.mimeType := "application/json";
         Resource.name := n;
         Resource.description :=
           "Domain: " ++ description_name ++ " (Status: " ++ description_status
             ++ ", Expires: " ++ description_expires ++ ")" |}.

Fixpoint map_resources (items : list value) : M (list Resource.t) :=
  match items with
  | [] => ret []
  | d :: rest =>
      r <- resource_of d ;;
      rs <- map_resources rest ;;
      ret (r :: rs)
  end.

(** [domains.map(...)]: only an array has the method. *)
Definition domains_map (domains : value) : M (list Resource.t) :=
  match domains with
  | JArray items => map_resources items
  | JUndefined => throw (TypeError "Cannot read properties of undefined (reading 'map')")
  | JNull => throw (TypeError "Cannot read properties of null (reading 'map')")
  | _ => throw (TypeError "domains.map is not a function")
  end.

(** Handler of [ListResourcesRequestSchema] *)
Definition ListResources : M (list Resource.t) :=
  try_catch
    (domains <- SpaceshipClient.getDomains P axios None None ;;
     domains_map domains)
    (fun error =>
       console_error "Error listing domains:" error ;;;
       ret []).

Definition unsupported_uri {A} (uri : string) : M A :=
  throw (McpError InvalidRequest ("Unsupported resource URI: " ++ uri)).

(** [url.pathname.split('/').filter(Boolean)] *)
Definition pathParts (u : URL.t) : list string :=
  List.filter (fun s => negb (Str.is_empty s)) (Str.split URL.slash (URL.pathname u)).

(** [a[i]] on an array of strings *)
Definition index (a : list string) (i : nat) : value :=
  match nth_error a i with
  | Some s => JString s
  | None => JUndefined
  end.

Definition strict_equal_string (v : value) (s : string) : bool :=
  match v with
  | JString x => String.eqb x s
  | _ => false
  end.

(** Handler of [ReadResourceRequestSchema] *)
Definition ReadResource (uri : string) : M (list ResourceContents.t) :=
  match URL.parse (special_scheme_state P) (ipv6_parser P) uri with
  | None => throw (TypeError "Invalid URL")
  | Some url =>
      if String.eqb (URL.protocol url) "spaceship:" then
        if strict_equal_string (index (pathParts url) 0) "domains" then
          let domainName := index (pathParts url) 1 in
          try_catch
            (domainInfo <- SpaceshipClient.getDomainInfo P axios domainName ;;
             ret [{| ResourceContents.uri := uri;
                     ResourceContents.mimeType := "application/json";
                     ResourceContents.text :=
                       JSON_stringify (NumberToString P) domainInfo |}])
            (fun error =>
               n <- interpolate domainName ;;
               console_error ("Error fetching domain info for " ++ n ++ ":") error ;;;
               n' <- interpolate domainName ;;
               throw (McpError InvalidRequest ("Domain " ++ n' ++ " not found")))
        else unsupported_uri uri
      else unsupported_uri uri
  end.

Definition string_property (description : string) : Property.t :=
  {| Property.type := "string"; Property.description := description |}.

Definition number_property (description : string) : Property.t :=
  {| Property.type := "number"; Property.description := description |}.

(** Handler of [ListToolsRequestSchema] *)
Definition ListTools : list Tool.t :=
  [ {| Tool.name := "get_domains";
       Tool.description := "Get a list of domains";
       Tool.inputSchema :=
         {| Tool.schema_type := "object";
            Tool.properties :=
              [("take", number_property "Number of domains to retrieve (default: 10)");
               ("skip", number_property "Number of domains to skip (default: 0)")];
            Tool.required := None |} |};
    {| Tool.name := "check_domain_availability";
       Tool.description := "Check if a domain is available for registration";
       Tool.inputSchema :=
         {| Tool.schema_type := "object";
            Tool.properties := [("domain", string_property "Domain name to check")];
            Tool.required := Some ["domain"] |} |};
    {| Tool.name := "get_domain_info";
       Tool.description := "Get information about a domain";
       Tool.inputSchema :=
         {| Tool.schema_type := "object";
            Tool.properties := [("domain", string_property "Domain name")];
            Tool.required := Some ["domain"] |} |};
    {| Tool.name := "register_domain";
       Tool.description := "Register a new domain";
       Tool.inputSchema :=
         {| Tool.schema_type := "object";
            Tool.properties :=
              [("domain", string_property "Domain name to register");
               ("contactId", string_property "Contact ID to use for registration")];
            Tool.required := Some ["domain"; "contactId"] |} |};
    {| Tool.name := "get_dns_records";
       Tool.description := "Get DNS records for a domain";
       Tool.inputSchema :=
         {| Tool.schema_type := "object";
            Tool.properties := [("domain", string_property "Domain name")];
            Tool.required := Some ["domain"] |} |};
    {| Tool.name := "get_contact";
       Tool.description := "Get contact information";
       Tool.inputSchema :=
         {| Tool.schema_type := "object";
            Tool.properties := [("contactId", string_property "Contact ID")];
            Tool.required := Some ["contactId"] |} |};
    {| Tool.name := "get_async_operation";
       Tool.description := "Get status of an asynchronous operation";
       Tool.inputSchema :=
         {| Tool.schema_type := "object";
            Tool.properties := [("operationId", string_property "Operation ID")];
            Tool.required := Some ["operationId"] |} |} ].

(** The tail every tool shares: call the client, wrap the answer as one
    text block, log and rethrow a failure. *)
Definition respond (call : M value) (line : string) : M (list Content.t) :=
  try_catch
    (result <- call ;;
     ret [{| Content.type := "text";
             Content.text := JSON_stringify (NumberToString P) result |}])
    (fun error =>
       console_error line error ;;;
       throw error).

(** [!s] on a string *)
Definition not_string (s : string) : bool := negb (ToBoolean (JString s)).

(** [Number(v) || d] *)
Definition number_or (n d : number) : number :=
  if ToBoolean (JNumber n) then n else d.

(** Handler of [CallToolRequestSchema] *)
Definition CallTool (name : string) (arguments : value) : M (list Content.t) :=
  if String.eqb name "get_domains" then
    take_arg <- Number_ (OptGet arguments "take") ;;
    let take := number_or take_arg SpaceshipClient.ten in
    skip_arg <- Number_ (OptGet arguments "skip") ;;
    let skip := number_or skip_arg SpaceshipClient.zero in
    respond (SpaceshipClient.getDomains P axios (Some take) (Some skip))
      "Error getting domains:"
  else if String.eqb name "check_domain_availability" then
    domain <- String_ (OptGet arguments "domain") ;;
    if not_string domain then
      throw (McpError InvalidParams "Domain name is required")
    else
      respond (SpaceshipClient.checkDomainAvailability P axios (JString domain))
        ("Error checking availability for " ++ domain ++ ":")
  else if String.eqb name "get_domain_info" then
    domain <- String_ (OptGet arguments "domain") ;;
    if not_string domain then
      throw (McpError InvalidParams "Domain name is required")
    else
      respond (SpaceshipClient.getDomainInfo P axios (JString domain))
        ("Error getting info for " ++ domain ++ ":")
  else if String.eqb name "register_domain" then
    domain <- String_ (OptGet arguments "domain") ;;
    contactId <- String_ (OptGet arguments "contactId") ;;
    if not_string domain || not_string contactId then
      throw (McpError InvalidParams "Domain name and contact ID are required")
    else
      respond (SpaceshipClient.registerDomain P axios (JString domain) (JString contactId))
        ("Error registering domain " ++ domain ++ ":")
  else if String.eqb name "get_dns_records" then
    domain <- String_ (OptGet arguments "domain") ;;
    if not_string domain then
      throw (McpError InvalidParams "Domain name is required")
    else
      respond (SpaceshipClient.getDnsRecords P axios (JString domain))
        ("Error getting DNS records for " ++ domain ++ ":")
  else if String.eqb name "get_contact" then
    contactId <- String_ (OptGet arguments "contactId") ;;
    if not_string contactId then
      throw (McpError InvalidParams "Contact ID is required")
    else
      respond (SpaceshipClient.getContact P axios (JString contactId))
        ("Error getting contact " ++ contactId ++ ":")
  else if String.eqb name "get_async_operation" then
    operationId <- String_ (OptGet arguments "operationId") ;;
    if not_string operationId then
      throw (McpError InvalidParams "Operation ID is required")
    else
      respond (SpaceshipClient.getAsyncOperation P axios (JString operationId))
        ("Error getting operation " ++ operationId ++ ":")
  else
    throw (McpError MethodNotFound ("Unknown tool: " ++ name)).

End Handlers.

End Server.

(** ** Vocabulary of the statements *)

Module Statements.
Import JS Eff.

(** A Number that is an integer: [m * 2^e] with no fractional bit. *)
Definition integral (m : positive) (e : Z) : bool :=
  (0 <=? e)%Z || (Z.land (Zpos m) (Z.ones (- e)) =? 0)%Z.

Definition is_nonneg_integer (n : number) : bool :=
  match n with
  | S754_zero false => true
  | S754_finite false m e => integral m e
  | _ => false
  end.

Definition is_positive_integer (n : number) : bool :=
  match n with
  | S754_finite false m e => integral m e
  | _ => false
  end.

(** An argument of the bag: a number, or left out. *)
Definition supplied (x : option number) : value :=
  match x with
  | Some n => JNumber n
  | None => JUndefined
  end.

Definition or_default (x : option number) (d : number) : number :=
  match x with
  | Some n => n
  | None => d
  end.

(** The request [GET /domains?take=..&skip=..]. *)
Definition list_domains_request (take skip : number) : HttpRequest :=
  {| method := GET; url := "/domains";
     params := [("take", JNumber take); ("skip", JNumber skip)];
     data := JUndefined |}.

Definition get_request (url : string) : HttpRequest :=
  {| method := GET; url := url; params := []; data := JUndefined |}.

(** [NaN], [+0] or [-0]: the Numbers that [||] replaces. *)
Definition is_NaN_or_zero (n : number) : bool :=
  match n with
  | S754_nan | S754_zero _ => true
  | _ => false
  end.

(** The documented shape of a resource URI: [spaceship://domains/<name>]
    with a name that is not empty. *)
Definition documented_prefix : string := "spaceship://domains/".

Definition matches_documented_form (uri : string) : bool :=
  String.prefix documented_prefix uri
  && (String.length documented_prefix <? String.length uri)%nat.

(** A path segment that the URL parser keeps as it is: not empty, without
    a slash or a character of the path percent-encode set, and not a dot
    segment. *)
Definition is_plain_char (c : ascii) : bool :=
  negb (URL.path_set c) && negb (URL.has_code 47 c).

Definition is_plain_segment (s : string) : bool :=
  negb (Str.is_empty s) && Str.all is_plain_char s
  && negb (URL.is_single_dot s) && negb (URL.is_double_dot s).

Definition plain (s : string) : Prop := is_plain_segment s = true.

(** An authority component as it stands in a URI: up to the first slash,
    question mark or number sign, with no tab or newline in it. *)
Definition is_authority_char (c : ascii) : bool :=
  negb (URL.is_authority_end c) && negb (URL.is_tab_or_newline c).

(** The eight operations of the client, with their arguments. *)
#[warnings="-register-all"]
Inductive Operation : Type :=
| call_getDomains (take skip : option number)
| call_checkDomainAvailability (domain : string)
| call_getDomainInfo (domain : string)
| call_registerDomain (domain contactId : string)
| call_getDnsRecords (domain : string)
| call_updateDnsRecords (domain : string) (records : value)
| call_getContact (contactId : string)
| call_getAsyncOperation (operationId : string).

Definition run (P : Platform) (axios : Transport) (op : Operation) : M value :=
  match op with
  | call_getDomains take skip => SpaceshipClient.getDomains P axios take skip
  | call_checkDomainAvailability d => SpaceshipClient.checkDomainAvailability P axios (JString d)
  | call_getDomainInfo d => SpaceshipClient.getDomainInfo P axios (JString d)
  | call_registerDomain d c => SpaceshipClient.registerDomain P axios (JString d) (JString c)
  | call_getDnsRecords d => SpaceshipClient.getDnsRecords P axios (JString d)
  | call_updateDnsRecords d r => SpaceshipClient.updateDnsRecords P axios (JString d) r
  | call_getContact c => SpaceshipClient.getContact P axios (JString c)
  | call_getAsyncOperation o => SpaceshipClient.getAsyncOperation P axios (JString o)
  end.

(** The HTTP request of each operation. *)
Definition request_of (op : Operation) : HttpRequest :=
  match op with
  | call_getDomains take skip =>
      list_domains_request (or_default take SpaceshipClient.ten)
        (or_default skip SpaceshipClient.zero)
  | call_checkDomainAvailability d => get_request ("/domains/availability/" ++ d)
  | call_getDomainInfo d => get_request ("/domains/" ++ d)
  | call_registerDomain d c =>
      {| method := POST; url := "/domains"; params := [];
         data := JObject [("domain", JString d); ("contactId", JString c)] |}
  | call_getDnsRecords d => get_request ("/domains/" ++ d ++ "/dns")
  | call_updateDnsRecords d r =>
      {| method := PUT; url := "/domains/" ++ d ++ "/dns"; params := [];
         data := JObject [("records", r)] |}
  | call_getContact c => get_request ("/contacts/" ++ c)
  | call_getAsyncOperation o => get_request ("/operations/" ++ o)
  end.

(** The shape every method of the client has: one request, a projection
    of the answer, and the catch block. *)
Definition client_method (P : Platform) (axios : Transport)
    (r : HttpRequest) (post : value -> completion value) : M value :=
  try_catch (bind (await axios r) (fun d => lift (post d)))
    (@SpaceshipClient.catch_block P value).

(** What a projection of the answer may raise. *)
Definition raises_type_errors (post : value -> completion value) : Prop :=
  forall d e, post d = Throw e -> exists msg, e = TypeError msg.

(** [error.response?.data?.message] of an Axios error. *)
Definition upstream_message (response : option value) : value :=
  match response with
  | Some response_data => OptGet response_data "message"
  | None => JUndefined
  end.

(** The input schema of a tool, as the claim about the catalog reads it. *)
Definition property_types (t : Tool.t) : list (string * string) :=
  map (fun kp => (fst kp, Property.type (snd kp)))
    (Tool.properties (Tool.inputSchema t)).

Definition required_of (t : Tool.t) : list string :=
  match Tool.required (Tool.inputSchema t) with
  | Some l => l
  | None => []
  end.

Definition is_InternalError (c : completion value) : bool :=
  match c with
  | Throw (McpError InternalError _) => true
  | _ => false
  end.

Definition is_InvalidParams (c : completion (list Content.t)) : bool :=
  match c with
  | Throw (McpError InvalidParams _) => true
  | _ => false
  end.

End Statements.

(** ** A platform and upstreams for the examples

    The examples parse no URL with a special scheme or a bracketed host
    and convert only integers, so the sample platform answers these. *)

Module Sample.
Import JS Eff.

Definition decimal_of_N (n : N) : string :=
  DecimalString.NilZero.string_of_uint (N.to_uint n).

(** [Number::toString] on the integers below [10^21]. *)
Definition integer_NumberToString (n : number) : string :=
  match n with
  | S754_nan => "NaN"
  | S754_zero _ => "0"
  | S754_infinity false => "Infinity"
  | S754_infinity true => "-Infinity"
  | S754_finite s m e =>
      (if s then "-" else EmptyString)
        ++ decimal_of_N (Z.to_N (Z.shiftl (Zpos m) e))
  end.

(** [StringToNumber] on the empty string and on strings of decimal digits. *)
Definition digits_StringToNumber (s : string) : number :=
  if Str.is_empty s then S754_zero false
  else if Str.all URL.is_digit s then number_of_Z (Z.of_N (URL.decimal 0 s))
  else NaN.

Definition platform : Platform :=
  {| NumberToString := integer_NumberToString;
     StringToNumber := digits_StringToNumber;
     special_scheme_state := fun _ _ => None;
     ipv6_parser := fun _ => None |}.

(** The Domain of the round-trip example. *)
Definition example_domain : value :=
  JObject [("id", JString "d1"); ("name", JString "example.com");
           ("status", JString "active"); ("expiresAt", JString "2026-01-01");
           ("autoRenew", JBool true)].

(** An upstream that settles every request the same way. *)
Definition settling (s : Settled) : Transport := fun _ => s.

Definition answering (d : value) : Transport := settling (Resolved d).

Definition upstream_down : Transport :=
  settling (RejectedAxios (Some (JObject [("message", JString "upstream down")]))
              "Request failed with status code 503").

(** A rejection that [axios.isAxiosError] does not recognise. *)
Definition foreign_failure : Transport := settling (RejectedOther "unexpected failure").

End Sample.

(** ** Start-up: the configuration of the client and [main] *)

Module Startup.
Import JS.

(** [process.env], once [dotenv.config()] has run. *)
Definition Env : Type := string -> option string.

(** [process.env.X] as a value *)
Definition env_value (env : Env) (x : string) : value :=
  match env x with
  | Some s => JString s
  | None => JUndefined
  end.

(** [process.env.X || d] *)
Definition env_or (env : Env) (x d : string) : string :=
  match or_else (env_value env x) (JString d) with
  | JString s => s
  | _ => d
  end.

Record SpaceshipConfig : Type :=
  { apiKey : string; apiSecret : string; baseUrl : string }.

(** The argument of [new SpaceshipClient(...)] *)
Definition config (env : Env) : SpaceshipConfig :=
  {| apiKey := env_or env "SPACESHIP_API_KEY" EmptyString;
     apiSecret := env_or env "SPACESHIP_API_SECRET" EmptyString;
     baseUrl := env_or env "SPACESHIP_API_URL" "https://api.spaceship.com" |}.

Record AxiosConfig : Type :=
  { baseURL : string; headers : list (string * string) }.

(** The argument of [axios.create] in the constructor *)
Definition constructor (c : SpaceshipConfig) : AxiosConfig :=
  {| baseURL := baseUrl c;
     headers := [("X-Api-Key", apiKey c); ("X-Api-Secret", apiSecret c);
                 ("Content-Type", "application/json")] |}.

#[warnings="-register-all"]
Inductive Line : Type :=
| Warn (text : string)
| Error (text : string)
| ErrorWith (text : string) (e : Thrown).

Definition credentials_warning : list Line :=
  [Warn "Warning: SPACESHIP_API_KEY and/or SPACESHIP_API_SECRET environment variables are not set.";
   Warn "The server will start, but API calls will fail until these are provided."].

(** [main], given how [server.connect(transport)] settles. *)
Definition main (env : Env) (connect : completion unit) : list Line * completion unit :=
  let warned :=
    if negb (ToBoolean (env_value env "SPACESHIP_API_KEY"))
       || negb (ToBoolean (env_value env "SPACESHIP_API_SECRET"))
    then credentials_warning else [] in
  match connect with
  | Normal _ =>
      ((warned ++ [Error "Spaceship.dev MCP server running on stdio"])%list, Normal tt)
  | Throw e => (warned, Throw e)
  end.

(** The lines of [console.warn] among the lines written. *)
Definition warnings (lines : list Line) : list Line :=
  List.filter (fun l => match l with Warn _ => true | _ => false end) lines.

(** [main().catch(...)]: the lines written and the exit code, if the
    process is made to exit. *)
Definition start (env : Env) (connect : completion unit) : list Line * option Z :=
  match main env connect with
  | (lines, Normal _) => (lines, None)
  | (lines, Throw e) => ((lines ++ [ErrorWith "Server error:" e])%list, Some 1%Z)
  end.

End Startup.

(** ** Vocabulary of the further statements *)

Module Shapes.
Import JS Eff Statements.

(** [interface Domain] *)
Record Domain : Type :=
  { id : string; name : string; status : string; expiresAt : string; autoRenew : bool }.

Definition domain_value (d : Domain) : value :=
  JObject [("id", JString (id d)); ("name", JString (name d));
           ("status", JString (status d)); ("expiresAt", JString (expiresAt d));
           ("autoRenew", JBool (autoRenew d))].

(** The resource that list-resources shows for a Domain. *)
Definition descriptor (d : Domain) : Resource.t :=
  {| Resource.uri := "spaceship://domains/" ++ name d;
     Resource.mimeType := "application/json";
     Resource.name := JString (name d);
     Resource.description :=
       "Domain: " ++ name d ++ " (Status: " ++ status d
         ++ ", Expires: " ++ expiresAt d ++ ")" |}.

Definition is_array (v : value) : bool :=
  match v with
  | JArray _ => true
  | _ => false
  end.

Definition is_nullish (v : value) : bool :=
  match v with
  | JUndefined | JNull => true
  | _ => false
  end.

(** The property of the response body that an operation returns, if it
    does not return the body itself. *)
Definition projection (op : Operation) : option string :=
  match op with
  | call_getDomains _ _ => Some "domains"
  | call_getDnsRecords _ => Some "records"
  | _ => None
  end.

Definition project (op : Operation) (body : value) : completion value :=
  match projection op with
  | Some k => Get body k
  | None => Normal body
  end.

(** [String(arguments?.k)] for the keys [k] in turn. *)
Fixpoint converted (P : Platform) (arguments : value) (keys : list string)
  : completion (list string) :=
  match keys with
  | [] => Normal []
  | k :: rest =>
      and_then (ToString (NumberToString P) (OptGet arguments k)) (fun s =>
      and_then (converted P arguments rest) (fun r => Normal (s :: r)))
  end.

(** The operation a tool performs on its converted required arguments. *)
Definition operation_for (tool : string) (vals : list string) : option Operation :=
  match vals with
  | [a] =>
      if String.eqb tool "check_domain_availability" then Some (call_checkDomainAvailability a)
      else if String.eqb tool "get_domain_info" then Some (call_getDomainInfo a)
      else if String.eqb tool "get_dns_records" then Some (call_getDnsRecords a)
      else if String.eqb tool "get_contact" then Some (call_getContact a)
      else if String.eqb tool "get_async_operation" then Some (call_getAsyncOperation a)
      else None
  | [a; b] =>
      if String.eqb tool "register_domain" then Some (call_registerDomain a b) else None
  | _ => None
  end.

(** The message of the InvalidParams error of a tool. *)
Definition required_message (tool : string) : string :=
  if String.eqb tool "register_domain" then "Domain name and contact ID are required"
  else if String.eqb tool "get_contact" then "Contact ID is required"
  else if String.eqb tool "get_async_operation" then "Operation ID is required"
  else "Domain name is required".

(** The line a tool writes with [console.error] when its operation fails. *)
Definition failure_line (tool : string) (vals : list string) : string :=
  let a := hd EmptyString vals in
  if String.eqb tool "check_domain_availability" then "Error checking availability for " ++ a ++ ":"
  else if String.eqb tool "get_domain_info" then "Error getting info for " ++ a ++ ":"
  else if String.eqb tool "register_domain" then "Error registering domain " ++ a ++ ":"
  else if String.eqb tool "get_dns_records" then "Error getting DNS records for " ++ a ++ ":"
  else if String.eqb tool "get_contact" then "Error getting contact " ++ a ++ ":"
  else "Error getting operation " ++ a ++ ":".

(** The one content block of a tool result. *)
Definition text_block (P : Platform) (result : value) : Content.t :=
  {| Content.type := "text";
     Content.text := JSON_stringify (NumberToString P) result |}.

(** [pathParts[1]] inside a template literal *)
Definition name_or_undefined (rest : list string) : string :=
  match rest with
  | n :: _ => n
  | [] => "undefined"
  end.

Definition has_colon (c : ascii) : bool := URL.has_code 58 c.

(** The tools of the catalog by position, from 0. *)
Definition no_tool : Tool.t :=
  {| Tool.name := EmptyString; Tool.description := EmptyString;
     Tool.inputSchema := {| Tool.schema_type := EmptyString;
                            Tool.properties := [];
                            Tool.required := None |} |}.

Definition tool_at (i : nat) : Tool.t := nth i Server.ListTools no_tool.

(** The classes of error that the client lets out. *)
Definition is_client_error (e : Thrown) : bool :=
  match e with
  | McpError InternalError _ | TypeError _ | OtherError _ => true
  | _ => false
  end.

End Shapes.

(** * Facts about the helpers *)

Module StrFacts.
Import Str.

Lemma append_assoc (a b c : string) : (a ++ b) ++ c = a ++ (b ++ c).
Proof. induction a as [|x a IH]; simpl; [reflexivity | now rewrite IH]. Qed.

Lemma append_empty_r (a : string) : a ++ EmptyString = a.
Proof. induction a as [|x a IH]; simpl; [reflexivity | now rewrite IH]. Qed.

Lemma all_append p a b : all p (a ++ b) = all p a && all p b.
Proof.
  induction a as [|x a IH]; simpl; [reflexivity|].
  now rewrite IH, andb_assoc.
Qed.

Lemma all_weaken (p q : ascii -> bool) s :
  (forall c, p c = true -> q c = true) -> all p s = true -> all q s = true.
Proof.
  intros Hpq. induction s as [|x s IH]; simpl; [reflexivity|].
  intros H. apply andb_true_iff in H as [Hx Hs].
  now rewrite (Hpq _ Hx), IH.
Qed.

Lemma filter_all p s : all p s = true -> filter p s = s.
Proof.
  induction s as [|x s IH]; simpl; [reflexivity|].
  intros H. apply andb_true_iff in H as [Hx Hs].
  now rewrite Hx, IH.
Qed.

Lemma break_none p s :
  all (fun c => negb (p c)) s = true -> break p s = (s, EmptyString).
Proof.
  induction s as [|x s IH]; simpl; [reflexivity|].
  intros H. apply andb_true_iff in H as [Hx Hs].
  apply negb_true_iff in Hx. now rewrite Hx, IH.
Qed.

Lemma break_append p a c b :
  all (fun x => negb (p x)) a = true -> p c = true ->
  break p (a ++ String c b) = (a, String c b).
Proof.
  intros Ha Hc. induction a as [|x a IH]; simpl.
  - now rewrite Hc.
  - simpl in Ha. apply andb_true_iff in Ha as [Hx Ha].
    apply negb_true_iff in Hx. now rewrite Hx, IH.
Qed.

Lemma split_none sep s :
  all (fun c => negb (Ascii.eqb c sep)) s = true -> split sep s = [s].
Proof.
  induction s as [|x s IH]; simpl; [reflexivity|].
  intros H. apply andb_true_iff in H as [Hx Hs].
  apply negb_true_iff in Hx. now rewrite Hx, IH.
Qed.

Lemma split_append sep a b :
  all (fun c => negb (Ascii.eqb c sep)) a = true ->
  split sep (a ++ String sep b) = a :: split sep b.
Proof.
  intros Ha. induction a as [|x a IH]; simpl.
  - now rewrite Ascii.eqb_refl.
  - simpl in Ha. apply andb_true_iff in Ha as [Hx Ha].
    apply negb_true_iff in Hx. now rewrite Hx, IH.
Qed.

Lemma rev_onto_append s t acc :
  rev_onto (s ++ t) acc = rev_onto t (rev_onto s acc).
Proof.
  revert acc. induction s as [|x s IH]; intros acc; simpl; [reflexivity|].
  apply IH.
Qed.

Lemma rev_onto_rev_onto s a b :
  rev_onto (rev_onto s a) b = rev_onto a (s ++ b).
Proof.
  revert a b. induction s as [|x s IH]; intros a b; simpl; [reflexivity|].
  now rewrite IH.
Qed.

Lemma rev_involutive s : rev (rev s) = s.
Proof. unfold rev. rewrite rev_onto_rev_onto. simpl. apply append_empty_r. Qed.

Lemma rev_onto_last s acc d :
  last s = Some d -> exists r, rev_onto s acc = String d r.
Proof.
  revert acc. induction s as [|x s IH]; intros acc H; simpl in *; [discriminate|].
  destruct s as [|y s].
  - injection H as <-. simpl. now exists acc.
  - apply IH. exact H.
Qed.

Lemma trim_keeps p c r d :
  p c = false -> last (String c r) = Some d -> p d = false ->
  trim p (String c r) = String c r.
Proof.
  intros Hc Hl Hd. unfold trim.
  assert (E : drop_while p (String c r) = String c r) by (simpl; now rewrite Hc).
  rewrite E.
  destruct (rev_onto_last (String c r) EmptyString d Hl) as [t Ht].
  unfold rev at 2. rewrite Ht. simpl. rewrite Hd.
  rewrite <- Ht. apply (rev_involutive (String c r)).
Qed.

Lemma last_append a c b : last (a ++ String c b) = last (String c b).
Proof.
  induction a as [|x a IH]; [reflexivity|].
  change (String x a ++ String c b) with (String x (a ++ String c b)).
  simpl last at 1. rewrite IH.
  destruct (a ++ String c b) eqn:E; [|reflexivity].
  destruct a; discriminate.
Qed.

Lemma last_all p s d : all p s = true -> last s = Some d -> p d = true.
Proof.
  induction s as [|x s IH]; simpl; [discriminate|].
  intros H Hl. apply andb_true_iff in H as [Hx Hs].
  destruct s as [|y s].
  - now injection Hl as <-.
  - now apply IH.
Qed.

Lemma last_nonempty s : is_empty s = false -> exists d, last s = Some d.
Proof.
  induction s as [|x s IH]; simpl; [discriminate|]. intros _.
  destruct s as [|y s]; [now exists x|]. now apply IH.
Qed.

End StrFacts.

Module URLFacts.
Import Str StrFacts URL Statements.

Lemma percent_encode_kept set s :
  all (fun c => negb (set c)) s = true -> percent_encode set s = s.
Proof.
  induction s as [|x s IH]; simpl; [reflexivity|].
  intros H. apply andb_true_iff in H as [Hx Hs].
  apply negb_true_iff in Hx. unfold percent_encode_char.
  now rewrite Hx, IH.
Qed.

(** What a plain character is not. *)
Lemma plain_char c :
  is_plain_char c = true ->
  path_set c = false /\ Ascii.eqb c slash = false
  /\ is_query_or_fragment_start c = false
  /\ is_tab_or_newline c = false /\ is_c0_control_or_space c = false.
Proof.
  destruct c as [[] [] [] [] [] [] [] []]; vm_compute; intros H;
    try discriminate H; repeat split; reflexivity.
Qed.

Lemma slash_code c : has_code 47 c = true -> c = slash.
Proof.
  destruct c as [[] [] [] [] [] [] [] []]; vm_compute; intros H;
    try discriminate H; reflexivity.
Qed.

Lemma authority_char c :
  is_authority_char c = true ->
  is_authority_end c = false /\ is_tab_or_newline c = false.
Proof.
  unfold is_authority_char. intros H.
  apply andb_true_iff in H as [H1 H2].
  now apply negb_true_iff in H1; apply negb_true_iff in H2.
Qed.

Lemma plain_segment s :
  plain s ->
  is_empty s = false /\ all is_plain_char s = true
  /\ is_single_dot s = false /\ is_double_dot s = false.
Proof.
  unfold plain, is_plain_segment. intros H.
  repeat (apply andb_true_iff in H as [H ?]).
  repeat split;
    try (apply negb_true_iff; assumption); assumption.
Qed.

Lemma all_plain (q : ascii -> bool) s :
  (forall c, is_plain_char c = true -> q c = true) -> plain s -> all q s = true.
Proof.
  intros Hq Hs. apply plain_segment in Hs as (_ & Ha & _).
  now apply (all_weaken is_plain_char).
Qed.

Lemma all_join (q : ascii -> bool) sep segs :
  all q sep = true -> Forall (fun s => all q s = true) segs ->
  all q (join sep segs) = true.
Proof.
  intros Hsep H. induction H as [|x l Hx Hl IH]; [reflexivity|].
  destruct l as [|y l]; [exact Hx|].
  change (join sep (x :: y :: l)) with (x ++ sep ++ join sep (y :: l)).
  now rewrite !all_append, Hx, Hsep, IH.
Qed.

Lemma all_join_plain (q : ascii -> bool) segs :
  (forall c, is_plain_char c = true -> q c = true) -> q slash = true ->
  Forall plain segs -> all q (join "/" segs) = true.
Proof.
  intros Hq Hs H. apply all_join.
  - change (all q "/") with (q slash && true). now rewrite Hs.
  - eapply Forall_impl; [|exact H]. intros s. now apply all_plain.
Qed.

Lemma split_join segs :
  segs <> [] -> Forall plain segs -> split slash (join "/" segs) = segs.
Proof.
  intros Hne H. induction H as [|x l Hx Hl IH]; [congruence|].
  assert (Hns : all (fun c => negb (Ascii.eqb c slash)) x = true).
  { apply all_plain; [|exact Hx]. intros c Hc.
    apply plain_char in Hc as (_ & Hc & _). now rewrite Hc. }
  destruct l as [|y l].
  - now apply split_none.
  - change (join "/" (x :: y :: l)) with (x ++ String slash (join "/" (y :: l))).
    rewrite split_append by exact Hns. f_equal. apply IH. discriminate.
Qed.

Lemma path_segments_plain segs : forall p,
  segs <> [] -> Forall plain segs -> path_segments p segs = (p ++ segs)%list.
Proof.
  induction segs as [|b rest IH]; intros p Hne H; [congruence|].
  inversion H as [|? ? Hb Hrest]; subst.
  pose proof (plain_segment b Hb) as (_ & Ha & Hsd & Hdd).
  assert (E : percent_encode path_set b = b).
  { apply percent_encode_kept. apply (all_weaken is_plain_char); [|exact Ha].
    intros c Hc. apply plain_char in Hc as (Hc & _). now rewrite Hc. }
  destruct rest as [|c rest].
  - simpl. now rewrite E, Hdd, Hsd.
  - change (path_segments p (b :: c :: rest)) with
      (let b' := percent_encode path_set b in
       path_segments (if is_double_dot b' then shorten p
                      else if is_single_dot b' then p else (p ++ [b'])%list)
                     (c :: rest)).
    cbv zeta. rewrite E, Hdd, Hsd.
    rewrite IH by (try discriminate; exact Hrest).
    now rewrite <- List.app_assoc.
Qed.

Lemma path_state_plain segs :
  segs <> [] -> Forall plain segs -> path_state (join "/" segs) = segs.
Proof.
  intros Hne H. unfold path_state.
  rewrite break_none.
  - simpl fst. rewrite split_join by assumption.
    now apply path_segments_plain.
  - apply all_join_plain; [|reflexivity|exact H].
    intros c Hc. apply plain_char in Hc as (_ & _ & Hc & _). now rewrite Hc.
Qed.

Section Parse.

Variable special : string -> string -> option (option string * path).
Variable ipv6 : string -> option string.

(** A [spaceship] URI with an authority the parser accepts and a path of
    plain segments parses into that path. *)
Lemma parse_spaceship auth h segs :
  all is_authority_char auth = true ->
  authority ipv6 auth = Some h ->
  segs <> [] -> Forall plain segs ->
  parse special ipv6 ("spaceship://" ++ auth ++ "/" ++ join "/" segs)
  = Some {| scheme := "spaceship"; host := Some h; path_of := Segments segs |}.
Proof.
  intros Hauth Hh Hne Hsegs.
  set (J := join "/" segs).
  assert (Hwhole : all (fun c => negb (is_tab_or_newline c))
                     ("spaceship://" ++ auth ++ String slash J) = true).
  { rewrite !all_append. apply andb_true_iff. split; [reflexivity|].
    apply andb_true_iff. split.
    - apply (all_weaken is_authority_char); [|exact Hauth].
      intros c Hc. apply authority_char in Hc as [_ Hc]. now rewrite Hc.
    - change (String slash J) with ("/" ++ J). rewrite all_append.
      apply andb_true_iff. split; [reflexivity|].
      apply all_join_plain; [|reflexivity|exact Hsegs].
      intros c Hc. apply plain_char in Hc as (_ & _ & _ & Hc & _). now rewrite Hc. }
  assert (Htrim : trim is_c0_control_or_space ("spaceship://" ++ auth ++ String slash J)
                  = "spaceship://" ++ auth ++ String slash J).
  { destruct (last_nonempty (String slash J) eq_refl) as [d Hd].
    apply trim_keeps with (d := d); [reflexivity| |].
    - change (last (("spaceship://" ++ auth) ++ String slash J) = Some d).
      now rewrite last_append.
    - assert (Hall : all (fun c => negb (is_c0_control_or_space c)) (String slash J) = true).
      { change (String slash J) with ("/" ++ J). rewrite all_append.
        apply andb_true_iff. split; [reflexivity|].
        apply all_join_plain; [|reflexivity|exact Hsegs].
        intros c Hc. apply plain_char in Hc as (_ & _ & _ & _ & Hc). now rewrite Hc. }
      apply (last_all _ _ _ Hall) in Hd. now apply negb_true_iff in Hd. }
  unfold parse.
  change ("spaceship://" ++ auth ++ "/" ++ J)
    with ("spaceship://" ++ auth ++ String slash J).
  rewrite Htrim, (filter_all _ _ Hwhole).
  change ("spaceship://" ++ auth ++ String slash J)
    with ("spaceship" ++ String ":" ("//" ++ auth ++ String slash J)).
  change ("spaceship" ++ String ":" ("//" ++ auth ++ String slash J))
    with (String "s" ("paceship" ++ String ":" ("//" ++ auth ++ String slash J))) at 1.
  cbv iota beta.
  change (is_alpha "s") with true. cbv iota.
  rewrite break_append by reflexivity.
  change (has_code 58 ":") with true. cbv iota.
  change (lowercase "spaceship") with "spaceship".
  change (is_special "spaceship") with false. cbv iota.
  change (after_scheme ipv6 "spaceship" ("//" ++ auth ++ String slash J))
    with (authority_state ipv6 "spaceship" (auth ++ String slash J)).
  unfold authority_state.
  rewrite break_append.
  - rewrite Hh. unfold path_start_state.
    change (has_code 47 slash) with true. cbv iota.
    unfold J. now rewrite path_state_plain.
  - apply (all_weaken is_authority_char); [|exact Hauth].
    intros c Hc. apply authority_char in Hc as [Hc _]. now rewrite Hc.
  - reflexivity.
Qed.

End Parse.

End URLFacts.

Module JSFacts.
Import JS.

(** Induction on a value, with the property in hand for every element of
    an array. *)
Lemma value_elements_ind (Q : value -> Prop) :
  Q JUndefined -> Q JNull -> (forall b, Q (JBool b)) -> (forall n, Q (JNumber n)) ->
  (forall s, Q (JString s)) ->
  (forall items, Forall Q items -> Q (JArray items)) ->
  (forall props, Q (JObject props)) ->
  forall v, Q v.
Proof.
  intros Hu Hn Hb Hnum Hs Ha Ho. fix IH 1. intros v.
  destruct v as [| |b|n|s|items|props];
    [exact Hu | exact Hn | apply Hb | apply Hnum | apply Hs | | apply Ho].
  apply Ha.
  exact ((fix go (l : list value) : Forall Q l :=
            match l with
            | [] => Forall_nil Q
            | x :: r => Forall_cons x (IH x) (go r)
            end) items).
Qed.

Lemma join_values_throws (Q : Thrown -> Prop) element l e :
  Forall (fun x => forall e', element x = Throw e' -> Q e') l ->
  join_values element l = Throw e -> Q e.
Proof.
  induction 1 as [|x r Hx Hr IH]; [discriminate|].
  destruct r as [|y r]; [apply Hx|].
  change (join_values element (x :: y :: r))
    with (and_then (element x) (fun sx =>
          and_then (join_values element (y :: r)) (fun sr => Normal (sx ++ "," ++ sr)))).
  destruct (element x) as [sx|ex] eqn:Ex; cbn [and_then].
  - destruct (join_values element (y :: r)) as [sr|er]; cbn [and_then]; [discriminate|].
    intros H. injection H as <-. now apply IH.
  - intros H. injection H as <-. now apply Hx.
Qed.

Section Conversions.

Variable N2S : number -> string.
Variable S2N : string -> number.

(** [ToString] throws nothing but the conversion [TypeError]. *)
Lemma ToString_throws v : forall e, ToString N2S v = Throw e -> e = cannot_convert.
Proof.
  induction v as [| |[]|n|s|items IH|props] using value_elements_ind;
    simpl; try discriminate.
  - intros e. apply (join_values_throws (fun e' => e' = cannot_convert)).
    eapply Forall_impl; [|exact IH].
    intros x Hx e'. destruct x; try discriminate; apply Hx.
  - intros e. destruct (has_own "toString" props); [|discriminate].
    intros H. now injection H as <-.
Qed.

Lemma ToNumber_throws v e : ToNumber N2S S2N v = Throw e -> e = cannot_convert.
Proof.
  destruct v as [| |[]|n|s|items|props]; try discriminate.
  - unfold ToNumber. destruct (ToString N2S (JArray items)) eqn:E; simpl; [discriminate|].
    intros H. injection H as <-. now apply ToString_throws in E.
  - unfold ToNumber. destruct (ToString N2S (JObject props)) eqn:E; simpl; [discriminate|].
    intros H. injection H as <-. now apply ToString_throws in E.
Qed.

End Conversions.

End JSFacts.

(** * Properties of the handlers *)

Module ServerFacts.
Import JS JSFacts Eff Str StrFacts URL URLFacts Statements Server.

Lemma join_empty_cons a l : join EmptyString (a :: l) = a ++ join EmptyString l.
Proof.
  destruct l as [|b l]; [symmetry; apply append_empty_r | reflexivity].
Qed.

Lemma split_pathname x l :
  plain x -> Forall plain l ->
  split slash (x ++ join EmptyString (map (String slash) l)) = x :: l.
Proof.
  intros Hx Hl. revert x Hx. induction Hl as [|y l Hy Hl IH]; intros x Hx.
  - simpl. rewrite append_empty_r. apply split_none.
    apply all_plain; [|exact Hx]. intros c Hc.
    apply plain_char in Hc as (_ & Hc & _). now rewrite Hc.
  - change (map (String slash) (y :: l)) with (String slash y :: map (String slash) l).
    rewrite join_empty_cons.
    change (String slash y ++ join EmptyString (map (String slash) l))
      with (String slash (y ++ join EmptyString (map (String slash) l))).
    rewrite split_append.
    + f_equal. now apply IH.
    + apply all_plain; [|exact Hx]. intros c Hc.
      apply plain_char in Hc as (_ & Hc & _). now rewrite Hc.
Qed.

Lemma filter_plain l :
  Forall plain l -> List.filter (fun s => negb (is_empty s)) l = l.
Proof.
  induction 1 as [|x l Hx Hl IH]; [reflexivity|].
  simpl. apply plain_segment in Hx as (Hx & _). now rewrite Hx, IH.
Qed.

(** The path parts of a path of plain segments are these segments. *)
Lemma pathParts_plain sch h segs :
  Forall plain segs ->
  pathParts {| scheme := sch; host := h; path_of := Segments segs |} = segs.
Proof.
  intros H. unfold pathParts, pathname. simpl path_of.
  destruct H as [|x l Hx Hl]; [reflexivity|].
  change (map (String slash) (x :: l)) with (String slash x :: map (String slash) l).
  rewrite join_empty_cons.
  change (String slash x ++ join EmptyString (map (String slash) l))
    with (String slash (x ++ join EmptyString (map (String slash) l))).
  change (split slash (String slash (x ++ join EmptyString (map (String slash) l))))
    with (EmptyString :: split slash (x ++ join EmptyString (map (String slash) l))).
  rewrite split_pathname by assumption.
  simpl. rewrite (filter_plain l Hl).
  apply plain_segment in Hx as (Hx & _). now rewrite Hx.
Qed.

Lemma upstream_calls_app t t' :
  upstream_calls (t ++ t') = (upstream_calls t ++ upstream_calls t')%list.
Proof.
  induction t as [|[r|line e] t IH]; simpl; [reflexivity| |]; now rewrite IH.
Qed.

(** Laws of the monad *)
Lemma bind_ret_l {A B} (a : A) (k : A -> M B) : bind (ret a) k = k a.
Proof. unfold bind, ret. destruct (k a) as [t r]. reflexivity. Qed.

Lemma bind_ret_r {A} (m : M A) : bind m ret = m.
Proof.
  destruct m as [t [a|e]]; simpl; [|reflexivity]. now rewrite List.app_nil_r.
Qed.

Lemma try_catch_calls {A} (m : M A) (h : Thrown -> M A) :
  (forall e, upstream_calls (trace (h e)) = []) ->
  upstream_calls (trace (try_catch m h)) = upstream_calls (trace m).
Proof.
  intros Hh. destruct m as [t [a|e]]; simpl; [reflexivity|].
  specialize (Hh e). destruct (h e) as [t' r]. simpl in *.
  now rewrite upstream_calls_app, Hh, List.app_nil_r.
Qed.

Lemma bind_pure_calls {A B} (m : M A) (k : A -> M B) :
  (forall a, upstream_calls (trace (k a)) = []) ->
  upstream_calls (trace (bind m k)) = upstream_calls (trace m).
Proof.
  intros Hk. destruct m as [t [a|e]]; simpl; [|reflexivity].
  specialize (Hk a). destruct (k a) as [t' r]. simpl in *.
  now rewrite upstream_calls_app, Hk, List.app_nil_r.
Qed.

Section Facts.

Variable P : Platform.
Variable axios : Transport.

(** The catch block of the client writes nothing and asks nothing. *)
Lemma catch_block_trace {A} (e : Thrown) : trace (@SpaceshipClient.catch_block P A e) = [].
Proof.
  destruct e as [code msg|msg|response msg|msg]; try reflexivity.
  unfold SpaceshipClient.catch_block, SpaceshipClient.interpolate.
  destruct (ToString _ _); reflexivity.
Qed.

Lemma catch_block_axios {A} response message :
  (forall text,
     ToBoolean (upstream_message response) = true ->
     ToString (NumberToString P) (upstream_message response) = Normal text ->
     @SpaceshipClient.catch_block P A (AxiosError response message)
     = ([], Throw (McpError InternalError ("Spaceship API error: " ++ text))))
  /\ (ToBoolean (upstream_message response) = false ->
      @SpaceshipClient.catch_block P A (AxiosError response message)
      = ([], Throw (McpError InternalError ("Spaceship API error: " ++ message)))).
Proof.
  unfold SpaceshipClient.catch_block, SpaceshipClient.interpolate.
  fold (upstream_message response). unfold or_else. split.
  - intros text Hb Hs. now rewrite Hb, Hs.
  - intros Hb. now rewrite Hb.
Qed.

Lemma method_calls r post : upstream_calls (trace (client_method P axios r post)) = [r].
Proof.
  unfold client_method. rewrite try_catch_calls.
  - rewrite bind_pure_calls by reflexivity. reflexivity.
  - intros e. now rewrite catch_block_trace.
Qed.

Lemma method_axios r post response message :
  axios r = RejectedAxios response message ->
  outcome (client_method P axios r post)
  = outcome (@SpaceshipClient.catch_block P value (AxiosError response message)).
Proof.
  intros H. unfold client_method, await. rewrite H.
  cbv beta iota delta [bind try_catch].
  destruct (@SpaceshipClient.catch_block P value (AxiosError response message))
    as [t' c]. reflexivity.
Qed.

Lemma method_other r post message :
  axios r = RejectedOther message ->
  outcome (client_method P axios r post) = Throw (OtherError message).
Proof. intros H. unfold client_method, await. now rewrite H. Qed.

Lemma method_plain r :
  client_method P axios r Normal
  = try_catch (await axios r) (@SpaceshipClient.catch_block P value).
Proof.
  unfold client_method. change (fun d : value => lift (Normal d)) with (@ret value).
  now rewrite bind_ret_r.
Qed.

(** The catch block never raises an InvalidParams error of its own. *)
Lemma catch_block_class (e : Thrown) :
  (forall m, e <> McpError InvalidParams m) ->
  forall m,
    outcome (@SpaceshipClient.catch_block P value e) <> Throw (McpError InvalidParams m).
Proof.
  intros He m. destruct e as [code msg|msg|response msg|msg]; simpl;
    try discriminate.
  - intros H. injection H as -> ->. now apply (He m).
  - unfold SpaceshipClient.interpolate.
    destruct (ToString _ _) as [s|e'] eqn:E; simpl; [discriminate|].
    apply ToString_throws in E. subst e'. discriminate.
Qed.

Lemma Get_raises k : raises_type_errors (fun d => Get d k).
Proof. intros [| | | | | |] e H; try discriminate H; injection H as <-; eauto. Qed.

Lemma Normal_raises : raises_type_errors Normal.
Proof. intros d e H. discriminate H. Qed.

Lemma method_class r post :
  raises_type_errors post ->
  forall m, outcome (client_method P axios r post) <> Throw (McpError InvalidParams m).
Proof.
  intros Hpost m. unfold client_method, await.
  destruct (axios r) as [d | response message | message];
    cbv beta iota delta [bind try_catch lift].
  - destruct (post d) as [v|e] eqn:E; [discriminate|].
    destruct (Hpost d e E) as [msg ->]. discriminate.
  - pose proof (catch_block_class (AxiosError response message)
                  (fun m' H => ltac:(discriminate H)) m) as Hc.
    destruct (@SpaceshipClient.catch_block P value (AxiosError response message))
      as [t' c]. exact Hc.
  - discriminate.
Qed.

Lemma run_method (op : Operation) :
  exists post,
    run P axios op = client_method P axios (request_of op) post /\ raises_type_errors post.
Proof.
  destruct op as [take skip|d|d|d c|d|d r|c|o]; simpl run; simpl request_of;
    unfold SpaceshipClient.getDomains, SpaceshipClient.checkDomainAvailability,
      SpaceshipClient.getDomainInfo, SpaceshipClient.registerDomain,
      SpaceshipClient.getDnsRecords, SpaceshipClient.updateDnsRecords,
      SpaceshipClient.getContact, SpaceshipClient.getAsyncOperation,
      SpaceshipClient.get, SpaceshipClient.interpolate, get_request;
    cbn [ToString];
    change (@lift string (Normal ?x)) with (@ret string x);
    rewrite ?bind_ret_l.
  - exists (fun d => Get d "domains"). split; [|apply Get_raises].
    destruct take, skip; reflexivity.
  - exists Normal. split; [|apply Normal_raises]. now rewrite method_plain.
  - exists Normal. split; [|apply Normal_raises]. now rewrite method_plain.
  - exists Normal. split; [|apply Normal_raises]. now rewrite method_plain.
  - exists (fun d => Get d "records"). split; [|apply Get_raises]. reflexivity.
  - exists Normal. split; [|apply Normal_raises]. now rewrite method_plain.
  - exists Normal. split; [|apply Normal_raises]. now rewrite method_plain.
  - exists Normal. split; [|apply Normal_raises]. now rewrite method_plain.
Qed.

(** No operation makes more than its one request. *)
Lemma run_calls (op : Operation) :
  upstream_calls (trace (run P axios op)) = [request_of op].
Proof. destruct (run_method op) as [post [-> _]]. apply method_calls. Qed.

(** The tail of a tool: the requests and the failure of the call. *)
Lemma respond_calls call line :
  upstream_calls (trace (respond P call line)) = upstream_calls (trace call).
Proof.
  unfold respond. rewrite try_catch_calls.
  - now rewrite bind_pure_calls.
  - reflexivity.
Qed.

Lemma respond_throws call line e :
  outcome call = Throw e -> outcome (respond P call line) = Throw e.
Proof.
  unfold respond. destruct call as [t [a|e']]; simpl; [discriminate|].
  now intros H; injection H as ->.
Qed.

Lemma respond_returns call line a :
  outcome call = Normal a ->
  outcome (respond P call line)
  = Normal [{| Content.type := "text";
               Content.text := JSON_stringify (NumberToString P) a |}].
Proof.
  unfold respond. destruct call as [t [a'|e']]; simpl; [|discriminate].
  now intros H; injection H as ->.
Qed.

End Facts.

End ServerFacts.

(** * The claims *)

Section Claims.
Import JS JSFacts Eff Statements Server ServerFacts.

Variable P : Platform.
Variable axios : Transport.

(** An empty string for the one required argument is refused before any
    request is made. *)
Lemma empty_domain_refused :
  CallTool P axios "check_domain_availability" (JObject [("domain", JString EmptyString)])
  = ([], Throw (McpError InvalidParams "Domain name is required")).
Proof. reflexivity. Qed.

Lemma empty_contact_refused domain :
  CallTool P axios "register_domain"
    (JObject [("domain", JString domain); ("contactId", JString EmptyString)])
  = ([], Throw (McpError InvalidParams "Domain name and contact ID are required")).
Proof.
  unfold CallTool. simpl. unfold not_string. simpl.
  now rewrite orb_true_r.
Qed.

(** C1, at the failing input: a [check_domain_availability] call whose
    argument bag has no [domain].  [String(undefined)] is the string
    [undefined], which is not empty, so the guard lets it through: the
    request [GET /domains/availability/undefined] is made and the outcome
    is never an InvalidParams error. *)
Theorem omitted_domain_reaches_upstream :
  upstream_calls (trace (CallTool P axios "check_domain_availability" (JObject [])))
  = [get_request "/domains/availability/undefined"]
  /\ is_InvalidParams
       (outcome (CallTool P axios "check_domain_availability" (JObject []))) = false.
Proof.
  unfold CallTool, respond, SpaceshipClient.checkDomainAvailability,
    SpaceshipClient.interpolate, SpaceshipClient.get, await, get_request.
  simpl.
  destruct (axios _) as [d | response message | message]; simpl.
  - split; reflexivity.
  - destruct (ToString _ _) as [s|e] eqn:E; simpl; split; try reflexivity.
    apply ToString_throws in E. now subst e.
  - split; reflexivity.
Qed.

(** The same happens in [register_domain]: with both arguments left out,
    the registration of the domain [undefined] for the contact [undefined]
    is posted. *)
Lemma omitted_arguments_registered :
  upstream_calls (trace (CallTool P axios "register_domain" (JObject [])))
  = [{| method := POST; url := "/domains"; params := [];
        data := JObject [("domain", JString "undefined");
                         ("contactId", JString "undefined")] |}].
Proof.
  change (CallTool P axios "register_domain" (JObject []))
    with (bind (ret "undefined") (fun domain =>
          bind (ret "undefined") (fun contactId =>
          respond P (run P axios (call_registerDomain domain contactId))
            ("Error registering domain " ++ domain ++ ":")))).
  rewrite !bind_ret_l, respond_calls.
  apply (run_calls P axios (call_registerDomain "undefined" "undefined")).
Qed.

(** C2, at the failing input: reading the URI that the list-resources
    handler builds for [example.com].  The URL parser takes [domains] for
    the host and [/example.com] for the path, so the first path part is
    not [domains]: the handler refuses the URI without asking the
    gateway. *)
Theorem documented_uri_refused :
  ReadResource P axios "spaceship://domains/example.com"
  = ([], Throw (McpError InvalidRequest
                  "Unsupported resource URI: spaceship://domains/example.com")).
Proof. reflexivity. Qed.

(** A [get_domains] call raises again whatever the client raises. *)
Lemma get_domains_rethrows arguments t s e :
  ToNumber (NumberToString P) (StringToNumber P) (OptGet arguments "take") = Normal t ->
  ToNumber (NumberToString P) (StringToNumber P) (OptGet arguments "skip") = Normal s ->
  outcome (SpaceshipClient.getDomains P axios
             (Some (number_or t SpaceshipClient.ten))
             (Some (number_or s SpaceshipClient.zero))) = Throw e ->
  outcome (CallTool P axios "get_domains" arguments) = Throw e.
Proof.
  intros Ht Hs He.
  unfold CallTool, Number_. simpl String.eqb. cbv iota.
  rewrite Ht. change (lift (Normal t)) with (ret t). rewrite bind_ret_l.
  rewrite Hs. change (lift (Normal s)) with (ret s). rewrite bind_ret_l.
  now apply respond_throws.
Qed.

(** C3, as amended: whatever the gateway raises while listing domains,
    list-resources answers the empty list and raises nothing; a
    [get_domains] tool call, once [Number] has converted [take] and
    [skip], raises that same error, unchanged; and when axios rejects the
    request with an Axios error whose message converts to a string, that
    error is the InternalError of the gateway with its message. *)
Theorem listing_swallows_tool_propagates :
  (forall e,
     outcome (SpaceshipClient.getDomains P axios None None) = Throw e ->
     outcome (ListResources P axios) = Normal [])
  /\ (forall arguments t s,
        ToNumber (NumberToString P) (StringToNumber P) (OptGet arguments "take") = Normal t ->
        ToNumber (NumberToString P) (StringToNumber P) (OptGet arguments "skip") = Normal s ->
        (forall e,
           outcome (SpaceshipClient.getDomains P axios
                      (Some (number_or t SpaceshipClient.ten))
                      (Some (number_or s SpaceshipClient.zero))) = Throw e ->
           outcome (CallTool P axios "get_domains" arguments) = Throw e)
        /\ (forall response message text,
              axios (list_domains_request (number_or t SpaceshipClient.ten)
                       (number_or s SpaceshipClient.zero))
              = RejectedAxios response message ->
              ToString (NumberToString P)
                (or_else (upstream_message response) (JString message)) = Normal text ->
              outcome (CallTool P axios "get_domains" arguments)
              = Throw (McpError InternalError ("Spaceship API error: " ++ text)))).
Proof.
  split.
  - intros e. unfold ListResources.
    destruct (SpaceshipClient.getDomains P axios None None) as [t [d|e']]; simpl;
      [discriminate|].
    reflexivity.
  - intros arguments t s Ht Hs. split.
    + intros e. now apply get_domains_rethrows.
    + intros response message text Hax Htext.
      apply (get_domains_rethrows arguments t s _ Ht Hs).
      set (op := call_getDomains (Some (number_or t SpaceshipClient.ten))
                   (Some (number_or s SpaceshipClient.zero))).
      change (SpaceshipClient.getDomains P axios _ _) with (run P axios op).
      destruct (run_method P axios op) as [post [-> _]].
      rewrite (method_axios P axios (request_of op) post response message Hax).
      unfold SpaceshipClient.catch_block, SpaceshipClient.interpolate.
      fold (upstream_message response). now rewrite Htext.
Qed.

(** The request of a [get_domains] call, once its two arguments have been
    converted. *)
Lemma get_domains_calls arguments t s :
  ToNumber (NumberToString P) (StringToNumber P) (OptGet arguments "take") = Normal t ->
  ToNumber (NumberToString P) (StringToNumber P) (OptGet arguments "skip") = Normal s ->
  upstream_calls (trace (CallTool P axios "get_domains" arguments))
  = [list_domains_request (number_or t SpaceshipClient.ten)
       (number_or s SpaceshipClient.zero)].
Proof.
  intros Ht Hs.
  unfold CallTool, Number_. simpl String.eqb. cbv iota.
  rewrite Ht. change (lift (Normal t)) with (ret t). rewrite bind_ret_l.
  rewrite Hs. change (lift (Normal s)) with (ret s). rewrite bind_ret_l.
  rewrite respond_calls.
  destruct (run_method P axios
              (call_getDomains (Some (number_or t SpaceshipClient.ten))
                 (Some (number_or s SpaceshipClient.zero)))) as [post [E _]].
  simpl run in E. rewrite E. apply method_calls.
Qed.

(** C4, as amended: a positive integer [take] and a non-negative integer
    [skip] reach the upstream call unchanged; a value left out is replaced
    by 10 for [take] and 0 for [skip]. *)
Theorem pagination_forwarded arguments (take skip : option number) :
  OptGet arguments "take" = supplied take ->
  OptGet arguments "skip" = supplied skip ->
  (forall n, take = Some n -> is_positive_integer n = true) ->
  (forall n, skip = Some n -> is_nonneg_integer n = true) ->
  upstream_calls (trace (CallTool P axios "get_domains" arguments))
  = [list_domains_request (or_default take SpaceshipClient.ten)
       (or_default skip SpaceshipClient.zero)].
Proof.
  intros Ht Hs Htake Hskip.
  rewrite (get_domains_calls arguments
             (match take with Some n => n | None => NaN end)
             (match skip with Some n => n | None => NaN end)).
  - f_equal. f_equal.
    + destruct take as [n|]; [|reflexivity].
      specialize (Htake n eq_refl). destruct n as [| | |[] m e]; try discriminate.
      reflexivity.
    + destruct skip as [n|]; [|reflexivity].
      specialize (Hskip n eq_refl). destruct n as [[]| | |[] m e]; try discriminate;
        reflexivity.
  - rewrite Ht. destruct take; reflexivity.
  - rewrite Hs. destruct skip; reflexivity.
Qed.

(** C5, as amended: an operation of the client makes one request; when
    axios rejects it with an Axios error, the operation raises an
    [McpError] built with the code InternalError and the text
    [Spaceship API error: ] followed by the [message] of the response body
    when that is truthy and converts to a string, and by the message of
    the Axios error when that [message] is absent or falsy; any other
    rejection is raised again as it is. *)
Theorem axios_errors_become_internal_errors (op : Operation) :
  upstream_calls (trace (run P axios op)) = [request_of op]
  /\ (forall response message,
        axios (request_of op) = RejectedAxios response message ->
        (forall text,
           ToBoolean (upstream_message response) = true ->
           ToString (NumberToString P) (upstream_message response) = Normal text ->
           outcome (run P axios op)
           = Throw (McpError InternalError ("Spaceship API error: " ++ text)))
        /\ (ToBoolean (upstream_message response) = false ->
            outcome (run P axios op)
            = Throw (McpError InternalError ("Spaceship API error: " ++ message))))
  /\ (forall message,
        axios (request_of op) = RejectedOther message ->
        outcome (run P axios op) = Throw (OtherError message)).
Proof.
  split; [apply run_calls|].
  destruct (run_method P axios op) as [post [-> _]]. split.
  - intros response message H. rewrite (method_axios P axios _ post _ _ H).
    destruct (@catch_block_axios P value response message) as [H1 H2]. split.
    + intros text Hb Hs. now rewrite (H1 text Hb Hs).
    + intros Hb. now rewrite (H2 Hb).
  - intros message H. now apply method_other.
Qed.

(** C6, as amended: when the URI parses and either its scheme is not
    [spaceship] or its first path part is not [domains], a URI outside the
    documented form is refused with an InvalidRequest error that names it,
    before any request is made; and once the URI has parsed, the handler
    raises nothing but InvalidRequest errors. *)
Theorem unsupported_uri_refused (uri : string) (url : URL.t) :
  URL.parse (special_scheme_state P) (ipv6_parser P) uri = Some url ->
  (matches_documented_form uri = false ->
   URL.protocol url <> "spaceship:" \/ index (pathParts url) 0 <> JString "domains" ->
   ReadResource P axios uri
   = ([], Throw (McpError InvalidRequest ("Unsupported resource URI: " ++ uri))))
  /\ (forall e, outcome (ReadResource P axios uri) = Throw e ->
      exists message, e = McpError InvalidRequest message).
Proof.
  intros Hparse. unfold ReadResource. rewrite Hparse. split.
  - intros _ [Hp | Hd].
    + apply String.eqb_neq in Hp. now rewrite Hp.
    + destruct (String.eqb (URL.protocol url) "spaceship:"); [|reflexivity].
      destruct (index (pathParts url) 0) as [| | | |s| |] eqn:E; try reflexivity.
      simpl. destruct (String.eqb_spec s "domains") as [->|]; [congruence|reflexivity].
  - intros e.
    destruct (String.eqb (URL.protocol url) "spaceship:");
      [|intros H; injection H as <-; eauto].
    destruct (strict_equal_string _ _); [|intros H; injection H as <-; eauto].
    assert (Hname : exists n, ToString (NumberToString P) (index (pathParts url) 1) = Normal n).
    { unfold index. destruct (nth_error _ _); simpl; eauto. }
    destruct Hname as [n Hn].
    destruct (SpaceshipClient.getDomainInfo P axios (index (pathParts url) 1))
      as [t [d|e']]; simpl; [discriminate|].
    unfold interpolate, SpaceshipClient.interpolate. rewrite Hn. simpl.
    intros H. injection H as <-. eauto.
Qed.

(** C7: a tool name outside the catalog is refused with a MethodNotFound
    error that carries the name, and no request is made. *)
Theorem unknown_tool_refused (name : string) (arguments : value) :
  ~ In name (map Tool.name ListTools) ->
  CallTool P axios name arguments
  = ([], Throw (McpError MethodNotFound ("Unknown tool: " ++ name))).
Proof.
  intros H. unfold CallTool.
  repeat match goal with
         | |- context [String.eqb name ?s] =>
             destruct (String.eqb_spec name s) as [->|_];
             [exfalso; apply H; simpl; tauto|]
         end.
  reflexivity.
Qed.

(** C9, as amended: a [get_domains] call never fails with an
    InvalidParams error, whatever its argument bag; and when [Number]
    converts its [take] and [skip], one [GET /domains] request is made,
    with 10 in place of a [take] that is NaN or zero and 0 in place of
    such a [skip]. *)
Theorem get_domains_never_invalid_params (arguments : value) :
  is_InvalidParams (outcome (CallTool P axios "get_domains" arguments)) = false
  /\ (forall t s,
        ToNumber (NumberToString P) (StringToNumber P) (OptGet arguments "take") = Normal t ->
        ToNumber (NumberToString P) (StringToNumber P) (OptGet arguments "skip") = Normal s ->
        upstream_calls (trace (CallTool P axios "get_domains" arguments))
        = [list_domains_request (if is_NaN_or_zero t then SpaceshipClient.ten else t)
             (if is_NaN_or_zero s then SpaceshipClient.zero else s)]).
Proof.
  split.
  - unfold CallTool, Number_. simpl String.eqb. cbv iota.
    destruct (ToNumber _ _ (OptGet arguments "take")) as [t|e] eqn:Et.
    2:{ apply ToNumber_throws in Et. now subst e. }
    change (lift (Normal t)) with (ret t). rewrite bind_ret_l.
    destruct (ToNumber _ _ (OptGet arguments "skip")) as [s|e] eqn:Es.
    2:{ apply ToNumber_throws in Es. now subst e. }
    change (lift (Normal s)) with (ret s). rewrite bind_ret_l.
    set (op := call_getDomains (Some (number_or t SpaceshipClient.ten))
                 (Some (number_or s SpaceshipClient.zero))).
    change (SpaceshipClient.getDomains P axios _ _) with (run P axios op).
    destruct (outcome (run P axios op)) as [d|e] eqn:E.
    + now rewrite (respond_returns P _ _ _ E).
    + rewrite (respond_throws P _ _ _ E).
      destruct (run_method P axios op) as [post [Hm Hpost]]. rewrite Hm in E.
      destruct e as [[] msg| | |]; try reflexivity.
      now apply (method_class P axios _ _ Hpost) in E.
  - intros t s Ht Hs. rewrite (get_domains_calls arguments t s Ht Hs).
    f_equal. unfold number_or. f_equal.
    + destruct t; reflexivity.
    + destruct s; reflexivity.
Qed.

(** Reading a [spaceship] URI whose path is [/domains/<name>]: whatever
    authority the parser accepts, the request is for that name. *)
Lemma read_domains_path auth h name :
  Str.all is_authority_char auth = true ->
  URL.authority (ipv6_parser P) auth = Some h ->
  plain name ->
  upstream_calls (trace (ReadResource P axios ("spaceship://" ++ auth ++ "/domains/" ++ name)))
  = [get_request ("/domains/" ++ name)].
Proof.
  intros Hauth Hh Hname.
  assert (Hsegs : Forall plain ["domains"; name]).
  { constructor; [reflexivity | constructor; [exact Hname | constructor]]. }
  unfold ReadResource.
  change ("spaceship://" ++ auth ++ "/domains/" ++ name)
    with ("spaceship://" ++ auth ++ "/" ++ Str.join "/" ["domains"; name]) at 1.
  rewrite (URLFacts.parse_spaceship _ _ auth h ["domains"; name] Hauth Hh)
    by (try discriminate; exact Hsegs).
  rewrite (pathParts_plain _ _ _ Hsegs).
  change (String.eqb (URL.protocol _) "spaceship:") with true. cbv iota.
  change (strict_equal_string (index ["domains"; name] 0) "domains") with true. cbv iota.
  change (index ["domains"; name] 1) with (JString name).
  rewrite try_catch_calls.
  - rewrite bind_pure_calls by reflexivity.
    apply (run_calls P axios (call_getDomainInfo name)).
  - intros e. reflexivity.
Qed.

(** C10, as amended: for a URI [spaceship://<authority>/domains/<name>]
    whose authority the URL parser accepts and whose name is a plain
    segment, the handler asks the gateway for [<name>]; the authority has
    no part in the request. *)
Theorem authority_ignored (auth name : string) :
  Str.all is_authority_char auth = true ->
  URL.authority (ipv6_parser P) auth <> None ->
  plain name ->
  upstream_calls (trace (ReadResource P axios ("spaceship://" ++ auth ++ "/domains/" ++ name)))
  = [get_request ("/domains/" ++ name)].
Proof.
  intros Hauth Hok Hname.
  destruct (URL.authority (ipv6_parser P) auth) as [h|] eqn:Hh; [|congruence].
  now apply (read_domains_path auth h name).
Qed.

(** The URI that list-resources builds for a domain whose name is a plain
    segment other than [domains] is refused by read-resource. *)
Lemma listed_uri_refused name :
  plain name -> name <> "domains" ->
  ReadResource P axios ("spaceship://domains/" ++ name)
  = ([], Throw (McpError InvalidRequest
                  ("Unsupported resource URI: " ++ "spaceship://domains/" ++ name))).
Proof.
  intros Hname Hne.
  assert (Hsegs : Forall plain [name]) by (constructor; [exact Hname | constructor]).
  unfold ReadResource.
  change ("spaceship://domains/" ++ name)
    with ("spaceship://" ++ "domains" ++ "/" ++ Str.join "/" [name]) at 1.
  rewrite (URLFacts.parse_spaceship _ _ "domains" "domains" [name])
    by (try discriminate; try reflexivity; exact Hsegs).
  rewrite (pathParts_plain _ _ _ Hsegs).
  change (String.eqb (URL.protocol _) "spaceship:") with true. cbv iota.
  change (strict_equal_string (index [name] 0) "domains") with (String.eqb name "domains").
  apply String.eqb_neq in Hne. now rewrite Hne.
Qed.

End Claims.

(** C8: the catalog of list-tools is these seven tools in this order;
    [get_domains] has the number properties [take] and [skip] and requires
    nothing, and every other tool requires exactly its string
    properties. *)
Theorem tool_catalog :
  map (fun t => (Tool.name t, Statements.property_types t, Statements.required_of t)) Server.ListTools
  = [ ("get_domains", [("take", "number"); ("skip", "number")], []);
      ("check_domain_availability", [("domain", "string")], ["domain"]);
      ("get_domain_info", [("domain", "string")], ["domain"]);
      ("register_domain", [("domain", "string"); ("contactId", "string")],
        ["domain"; "contactId"]);
      ("get_dns_records", [("domain", "string")], ["domain"]);
      ("get_contact", [("contactId", "string")], ["contactId"]);
      ("get_async_operation", [("operationId", "string")], ["operationId"]) ]
  /\ NoDup (map Tool.name Server.ListTools).
Proof.
  split; [reflexivity|].
  repeat constructor; simpl; intuition discriminate.
Qed.

(** * The theorems at concrete requests *)

Module Examples.
Import JS Eff Statements Server.

(** C3 at an upstream that answers 503 with a message: the listing is
    empty, the tool call raises the InternalError of the gateway. *)
Lemma listing_swallows_tool_propagates_witness :
  outcome (ListResources Sample.platform Sample.upstream_down) = Normal []
  /\ outcome (CallTool Sample.platform Sample.upstream_down "get_domains" JUndefined)
     = Throw (McpError InternalError "Spaceship API error: upstream down").
Proof.
  destruct (listing_swallows_tool_propagates Sample.platform Sample.upstream_down)
    as [Hlist Htool].
  split.
  - apply (Hlist (McpError InternalError "Spaceship API error: upstream down")).
    reflexivity.
  - destruct (Htool JUndefined NaN NaN eq_refl eq_refl) as [_ Haxios].
    apply (Haxios (Some (JObject [("message", JString "upstream down")]))
             "Request failed with status code 503"); reflexivity.
Defined.

(** C3, the claim as stated fails when the failure of the gateway is not
    an InternalError: with a [null] body [getDomains] raises a
    [TypeError], and with a rejection that is not an Axios error the
    rejection itself; the tool call raises these as they are, while the
    listing is empty. *)
Lemma tool_propagates_other_classes :
  outcome (SpaceshipClient.getDomains Sample.platform (Sample.answering JNull)
             (Some SpaceshipClient.ten) (Some SpaceshipClient.zero))
  = Throw (TypeError "Cannot read properties of null (reading 'domains')")
  /\ outcome (CallTool Sample.platform (Sample.answering JNull) "get_domains" JUndefined)
     = Throw (TypeError "Cannot read properties of null (reading 'domains')")
  /\ outcome (ListResources Sample.platform (Sample.answering JNull)) = Normal []
  /\ outcome (CallTool Sample.platform Sample.foreign_failure "get_domains" JUndefined)
     = Throw (OtherError "unexpected failure").
Proof. repeat split. Qed.

(** C4 at [take = 25], [skip = 50]. *)
Lemma pagination_forwarded_witness :
  upstream_calls
    (trace (CallTool Sample.platform (Sample.answering (JObject [("domains", JArray [])]))
              "get_domains"
              (JObject [("take", JNumber (number_of_Z 25));
                        ("skip", JNumber (number_of_Z 50))])))
  = [list_domains_request (number_of_Z 25) (number_of_Z 50)].
Proof.
  apply (pagination_forwarded Sample.platform
           (Sample.answering (JObject [("domains", JArray [])]))
           (JObject [("take", JNumber (number_of_Z 25));
                     ("skip", JNumber (number_of_Z 50))])
           (Some (number_of_Z 25)) (Some (number_of_Z 50))).
  - reflexivity.
  - reflexivity.
  - intros n H. injection H as <-. reflexivity.
  - intros n H. injection H as <-. reflexivity.
Defined.

(** C4, the claim as stated fails at [take = 0]: the request carries 10. *)
Lemma zero_take_replaced :
  is_nonneg_integer (number_of_Z 0) = true
  /\ upstream_calls
       (trace (CallTool Sample.platform (Sample.answering (JObject [("domains", JArray [])]))
                 "get_domains"
                 (JObject [("take", JNumber (number_of_Z 0));
                           ("skip", JNumber (number_of_Z 0))])))
     = [list_domains_request (number_of_Z 10) (number_of_Z 0)]
  /\ number_of_Z 10 <> number_of_Z 0.
Proof. repeat split. discriminate. Qed.

(** C5 at a 503 answer whose body carries a message. *)
Lemma axios_errors_become_internal_errors_witness :
  outcome (run Sample.platform Sample.upstream_down (call_getDomainInfo "example.com"))
  = Throw (McpError InternalError "Spaceship API error: upstream down").
Proof.
  apply (proj1 (proj1 (proj2 (axios_errors_become_internal_errors
                                Sample.platform Sample.upstream_down
                                (call_getDomainInfo "example.com")))
                  (Some (JObject [("message", JString "upstream down")]))
                  "Request failed with status code 503" eq_refl)
           "upstream down");
    reflexivity.
Defined.

(** C5, the claim as stated fails when the rejection is not an Axios
    error, which leaves the client as it came; an answer whose body is
    [null] makes [getDomains] itself raise a [TypeError]; and so does an
    Axios error whose [message] is an object with a [toString] property
    of its own, inside the catch block. *)
Lemma foreign_error_escapes :
  outcome (run Sample.platform Sample.foreign_failure (call_getDomains None None))
  = Throw (OtherError "unexpected failure")
  /\ is_InternalError
       (outcome (run Sample.platform Sample.foreign_failure (call_getDomains None None)))
     = false
  /\ outcome (run Sample.platform (Sample.answering JNull) (call_getDomains None None))
     = Throw (TypeError "Cannot read properties of null (reading 'domains')")
  /\ outcome (run Sample.platform
                (Sample.settling
                   (RejectedAxios
                      (Some (JObject [("message", JObject [("toString", JNull)])]))
                      "Request failed with status code 500"))
                (call_getDomains None None))
     = Throw (TypeError "Cannot convert object to primitive value").
Proof. repeat split. Qed.

(** C6 at a [spaceship] URI whose first path part is [zones]. *)
Lemma unsupported_uri_refused_witness :
  ReadResource Sample.platform (Sample.answering Sample.example_domain)
    "spaceship://registry/zones/example.com"
  = ([], Throw (McpError InvalidRequest
                  "Unsupported resource URI: spaceship://registry/zones/example.com")).
Proof.
  refine (proj1 (unsupported_uri_refused Sample.platform
                   (Sample.answering Sample.example_domain)
                   "spaceship://registry/zones/example.com" _ eq_refl) eq_refl _).
  right. discriminate.
Defined.

(** C6, the claim as stated fails at a URI outside the documented form
    that the handler accepts. *)
Lemma undocumented_uri_accepted :
  matches_documented_form "spaceship://registry/domains/example.com" = false
  /\ ReadResource Sample.platform (Sample.answering Sample.example_domain)
       "spaceship://registry/domains/example.com"
     = ([Http (get_request "/domains/example.com")],
        Normal [{| ResourceContents.uri := "spaceship://registry/domains/example.com";
                   ResourceContents.mimeType := "application/json";
                   ResourceContents.text :=
                     JSON_stringify Sample.integer_NumberToString Sample.example_domain |}]).
Proof. split; reflexivity. Qed.

(** C7 at the name [delete_domain]. *)
Lemma unknown_tool_refused_witness :
  CallTool Sample.platform Sample.upstream_down "delete_domain" JUndefined
  = ([], Throw (McpError MethodNotFound "Unknown tool: delete_domain")).
Proof.
  apply (unknown_tool_refused Sample.platform Sample.upstream_down
           "delete_domain" JUndefined).
  simpl. intuition discriminate.
Defined.

(** C9 at [take = 0] and a [skip] that is not a number. *)
Lemma get_domains_never_invalid_params_witness :
  is_InvalidParams
    (outcome (CallTool Sample.platform Sample.upstream_down "get_domains"
                (JObject [("take", JNumber (number_of_Z 0)); ("skip", JString "abc")])))
  = false
  /\ upstream_calls
       (trace (CallTool Sample.platform Sample.upstream_down "get_domains"
                 (JObject [("take", JNumber (number_of_Z 0)); ("skip", JString "abc")])))
     = [list_domains_request (number_of_Z 10) (number_of_Z 0)].
Proof.
  destruct (get_domains_never_invalid_params Sample.platform Sample.upstream_down
              (JObject [("take", JNumber (number_of_Z 0)); ("skip", JString "abc")]))
    as [Hclass Hcalls].
  split.
  - exact Hclass.
  - apply (Hcalls (number_of_Z 0) NaN); reflexivity.
Defined.

(** C9, the claim as stated fails at a [take] that [Number] cannot
    convert, an object with a [toString] property of its own: the
    conversion throws and no request is made. *)
Lemma unconvertible_take_stops_dispatch :
  CallTool Sample.platform (Sample.answering (JObject [("domains", JArray [])])) "get_domains"
    (JObject [("take", JObject [("toString", JNull)])])
  = ([], Throw (TypeError "Cannot convert object to primitive value")).
Proof. reflexivity. Qed.

(** C10 at the authority [registry] and the name [example.com]. *)
Lemma authority_ignored_witness :
  upstream_calls
    (trace (ReadResource Sample.platform (Sample.answering Sample.example_domain)
              "spaceship://registry/domains/example.com"))
  = [get_request "/domains/example.com"].
Proof.
  apply (authority_ignored Sample.platform (Sample.answering Sample.example_domain)
           "registry" "example.com").
  - reflexivity.
  - discriminate.
  - reflexivity.
Defined.

(** C10, the claim as stated fails at an authority with a port above
    65535: the URL does not parse, where the same URI with the authority
    [x] is accepted. *)
Lemma authority_port_out_of_range :
  upstream_calls
    (trace (ReadResource Sample.platform (Sample.answering Sample.example_domain)
              "spaceship://x/domains/example.com"))
  = [get_request "/domains/example.com"]
  /\ ReadResource Sample.platform (Sample.answering Sample.example_domain)
       "spaceship://x:99999/domains/example.com"
     = ([], Throw (TypeError "Invalid URL")).
Proof. split; reflexivity. Qed.

End Examples.

(** * Further properties: the client *)

Section Client.
Import JS JSFacts Eff Statements Shapes Server ServerFacts.

Variable P : Platform.
Variable axios : Transport.

Lemma project_raises op : raises_type_errors (project op).
Proof.
  unfold project. destruct (projection op); [apply Get_raises | apply Normal_raises].
Qed.

(** Every operation is its request, the projection of the answer and the
    catch block. *)
Lemma run_projects (op : Operation) :
  run P axios op = client_method P axios (request_of op) (project op).
Proof.
  destruct op as [take skip|d|d|d c|d|d r|c|o]; simpl run; simpl request_of;
    unfold SpaceshipClient.getDomains, SpaceshipClient.checkDomainAvailability,
      SpaceshipClient.getDomainInfo, SpaceshipClient.registerDomain,
      SpaceshipClient.getDnsRecords, SpaceshipClient.updateDnsRecords,
      SpaceshipClient.getContact, SpaceshipClient.getAsyncOperation,
      SpaceshipClient.get, SpaceshipClient.interpolate, get_request;
    cbn [ToString];
    change (@lift string (Normal ?x)) with (@ret string x);
    rewrite ?bind_ret_l;
    try (change (project _) with (@Normal value); now rewrite method_plain).
  - destruct take, skip; reflexivity.
  - reflexivity.
Qed.

Lemma run_trace (op : Operation) : trace (run P axios op) = [Http (request_of op)].
Proof.
  rewrite run_projects. unfold client_method, await.
  destruct (axios (request_of op)) as [d | response message | message];
    cbv beta iota delta [bind try_catch lift].
  - destruct (project op d) as [v|e] eqn:E; [reflexivity|].
    destruct (project_raises op d e E) as [msg ->]. reflexivity.
  - pose proof (@catch_block_trace P value (AxiosError response message)) as Ht.
    destruct (@SpaceshipClient.catch_block P value (AxiosError response message))
      as [t' c]. simpl in Ht. now subst t'.
  - reflexivity.
Qed.

Lemma run_resolved (op : Operation) (body : value) :
  axios (request_of op) = Resolved body ->
  run P axios op = ([Http (request_of op)], project op body).
Proof.
  intros H. rewrite run_projects. unfold client_method, await. rewrite H.
  cbv beta iota delta [bind try_catch lift].
  destruct (project op body) as [v|e] eqn:E; [reflexivity|].
  destruct (project_raises op body e E) as [msg ->]. reflexivity.
Qed.

Lemma run_error_class (op : Operation) (e : Thrown) :
  outcome (run P axios op) = Throw e -> is_client_error e = true.
Proof.
  rewrite run_projects. unfold client_method, await.
  destruct (axios (request_of op)) as [d | response message | message];
    cbv beta iota delta [bind try_catch lift].
  - destruct (project op d) as [v|e'] eqn:E; [discriminate|].
    destruct (project_raises op d e' E) as [msg ->].
    simpl. intros H. now injection H as <-.
  - unfold SpaceshipClient.catch_block, SpaceshipClient.interpolate, lift, bind.
    destruct (ToString _ _) as [s|e'] eqn:E; simpl.
    + intros H. now injection H as <-.
    + apply ToString_throws in E. subst e'. intros H. now injection H as <-.
  - simpl. intros H. now injection H as <-.
Qed.

(** X1: an answer of the upstream is returned without a check of its
    shape: the body itself, or its [domains] or [records] property, with
    the [TypeError] of the property access when the body is [null]. *)
Theorem client_returns_body (op : Operation) (body : value) :
  axios (request_of op) = Resolved body ->
  run P axios op = ([Http (request_of op)], project op body).
Proof. apply run_resolved. Qed.

(** X2: whatever the upstream does, the client lets out only an
    InternalError, a [TypeError] or the foreign rejection: never an Axios
    error as it came, and never another class of protocol error. *)
Theorem client_error_classes (op : Operation) (e : Thrown) :
  outcome (run P axios op) = Throw e -> is_client_error e = true.
Proof. apply run_error_class. Qed.

End Client.

(** * Further properties: the tools *)

Section Tools.
Import JS JSFacts Eff Statements Shapes Server ServerFacts.

Variable P : Platform.
Variable axios : Transport.

Lemma respond_trace_returns call line a :
  outcome call = Normal a -> trace (respond P call line) = trace call.
Proof.
  unfold respond. destruct call as [t [a'|e']]; simpl; [|discriminate].
  intros _. now rewrite List.app_nil_r.
Qed.

Lemma respond_trace_throws call line e :
  outcome call = Throw e ->
  trace (respond P call line) = (trace call ++ [ConsoleError line e])%list.
Proof.
  unfold respond. destruct call as [t [a'|e']]; simpl; [discriminate|].
  intros H. now injection H as ->.
Qed.

(** How the dispatch of a tool with required arguments goes on, once
    [String] has converted them. *)
Lemma dispatch_shape (tool : Tool.t) (arguments : value) (vals : list string) :
  In tool ListTools -> required_of tool <> [] ->
  converted P arguments (required_of tool) = Normal vals ->
  if existsb Str.is_empty vals
  then CallTool P axios (Tool.name tool) arguments
       = ([], Throw (McpError InvalidParams (required_message (Tool.name tool))))
  else exists op,
         operation_for (Tool.name tool) vals = Some op
         /\ CallTool P axios (Tool.name tool) arguments
            = respond P (run P axios op) (failure_line (Tool.name tool) vals).
Proof.
  intros Hin Hreq Hconv.
  simpl in Hin.
  destruct Hin as [<-|[<-|[<-|[<-|[<-|[<-|[<-|[]]]]]]]];
    try (now elim Hreq);
    cbn [required_of Tool.required Tool.inputSchema Tool.name converted] in *;
    unfold CallTool, String_; simpl String.eqb; cbv iota.
  all: destruct (ToString (NumberToString P) (OptGet arguments _)) as [a|e];
    cbn [and_then] in Hconv; try discriminate Hconv.
  all: try (destruct (ToString (NumberToString P) (OptGet arguments "contactId")) as [b|e];
            cbn [and_then] in Hconv; try discriminate Hconv).
  all: injection Hconv as <-.
  all: repeat (change (@lift string (Normal ?x)) with (@ret string x); rewrite bind_ret_l).
  all: unfold not_string; cbn [ToBoolean existsb].
  all: try (destruct (Str.is_empty a) eqn:Ea; cbn [negb orb];
            [reflexivity | eexists; split; reflexivity]).
  destruct (Str.is_empty a) eqn:Ea, (Str.is_empty b) eqn:Eb; cbn [negb orb];
    try reflexivity.
  eexists; split; reflexivity.
Qed.

(** X3: a required argument that [String] turns into the empty string
    stops the call: the InvalidParams error of the tool is raised and no
    request is made. *)
Theorem empty_argument_refused (tool : Tool.t) (arguments : value) (vals : list string) :
  In tool ListTools -> required_of tool <> [] ->
  converted P arguments (required_of tool) = Normal vals ->
  existsb Str.is_empty vals = true ->
  CallTool P axios (Tool.name tool) arguments
  = ([], Throw (McpError InvalidParams (required_message (Tool.name tool)))).
Proof.
  intros Hin Hreq Hconv He.
  pose proof (dispatch_shape tool arguments vals Hin Hreq Hconv) as H.
  now rewrite He in H.
Qed.

(** X4: when no required argument is empty, the tool makes the one request
    of its operation, and an answer comes back as one text block with the
    serialized result and nothing logged. *)
Theorem tool_calls_its_operation (tool : Tool.t) (arguments : value) (vals : list string) :
  In tool ListTools -> required_of tool <> [] ->
  converted P arguments (required_of tool) = Normal vals ->
  existsb Str.is_empty vals = false ->
  exists op,
    operation_for (Tool.name tool) vals = Some op
    /\ upstream_calls (trace (CallTool P axios (Tool.name tool) arguments)) = [request_of op]
    /\ (forall body result,
          axios (request_of op) = Resolved body -> project op body = Normal result ->
          CallTool P axios (Tool.name tool) arguments
          = ([Http (request_of op)], Normal [text_block P result])).
Proof.
  intros Hin Hreq Hconv He.
  pose proof (dispatch_shape tool arguments vals Hin Hreq Hconv) as H.
  rewrite He in H. destruct H as [op [Hop ->]].
  exists op. split; [exact Hop|]. split.
  - rewrite respond_calls. apply run_calls.
  - intros body result Hb Hr.
    pose proof (run_resolved P axios op body Hb) as Hrun. rewrite Hr in Hrun.
    rewrite Hrun. unfold respond, text_block. reflexivity.
Qed.

(** X5: when the operation of a tool fails, the tool writes one line with
    the error to [console.error], after the request, and raises the same
    error. *)
Theorem tool_failure_logged_once (tool : Tool.t) (arguments : value) (vals : list string)
    (e : Thrown) :
  In tool ListTools -> required_of tool <> [] ->
  converted P arguments (required_of tool) = Normal vals ->
  existsb Str.is_empty vals = false ->
  exists op,
    operation_for (Tool.name tool) vals = Some op
    /\ (outcome (run P axios op) = Throw e ->
        CallTool P axios (Tool.name tool) arguments
        = ([Http (request_of op); ConsoleError (failure_line (Tool.name tool) vals) e],
           Throw e)).
Proof.
  intros Hin Hreq Hconv He.
  pose proof (dispatch_shape tool arguments vals Hin Hreq Hconv) as H.
  rewrite He in H. destruct H as [op [Hop ->]].
  exists op. split; [exact Hop|]. intros Hout.
  pose proof (run_trace P axios op) as Ht.
  destruct (run P axios op) as [t [v|e']]; simpl in *; [discriminate|].
  injection Hout as ->. now subst t.
Qed.

(** X6: an argument that [String] cannot convert stops the call with the
    [TypeError] of the conversion, before any request. *)
Theorem unconvertible_argument_throws (tool : Tool.t) (arguments : value) (e : Thrown) :
  In tool ListTools ->
  converted P arguments (required_of tool) = Throw e ->
  CallTool P axios (Tool.name tool) arguments = ([], Throw cannot_convert).
Proof.
  intros Hin Hconv.
  simpl in Hin.
  destruct Hin as [<-|[<-|[<-|[<-|[<-|[<-|[<-|[]]]]]]]];
    cbn [required_of Tool.required Tool.inputSchema Tool.name converted] in *;
    try discriminate Hconv;
    unfold CallTool, String_; simpl String.eqb; cbv iota.
  all: destruct (ToString (NumberToString P) (OptGet arguments _)) as [a|e1] eqn:E1;
    cbn [and_then] in Hconv;
    [|apply ToString_throws in E1; subst e1; reflexivity].
  all: try discriminate Hconv.
  change (@lift string (Normal a)) with (@ret string a). rewrite bind_ret_l.
  destruct (ToString (NumberToString P) (OptGet arguments "contactId")) as [b|e2] eqn:E2;
    cbn [and_then] in Hconv; [discriminate|].
  apply ToString_throws in E2. subst e2. reflexivity.
Qed.

End Tools.

Section Taxonomy.
Import JS JSFacts Eff Statements Shapes Server ServerFacts.

Variable P : Platform.
Variable axios : Transport.

Lemma respond_throws_inv call line e :
  outcome (respond P call line) = Throw e -> outcome call = Throw e.
Proof.
  unfold respond. destruct call as [t [a|e']]; simpl; [discriminate|].
  intros H. now injection H as ->.
Qed.

Lemma respond_run_class op line e :
  outcome (respond P (run P axios op) line) = Throw e -> is_client_error e = true.
Proof.
  intros H. apply respond_throws_inv in H. now apply (run_error_class P axios op).
Qed.

(** Where an error of a tool call comes from. *)
Lemma call_tool_throws name arguments e :
  outcome (CallTool P axios name arguments) = Throw e ->
  is_client_error e = true
  \/ (exists m, e = McpError InvalidParams m
                /\ In name (map Tool.name ListTools) /\ name <> "get_domains")
  \/ (exists m, e = McpError MethodNotFound m /\ ~ In name (map Tool.name ListTools)).
Proof.
  unfold CallTool, String_, Number_.
  destruct (String.eqb_spec name "get_domains") as [->|N1].
  { destruct (ToNumber _ _ (OptGet arguments "take")) as [t|e1] eqn:E1.
    2:{ apply ToNumber_throws in E1. subst e1. intros H. injection H as <-. now left. }
    change (lift (Normal t)) with (ret t). rewrite bind_ret_l.
    destruct (ToNumber _ _ (OptGet arguments "skip")) as [s|e2] eqn:E2.
    2:{ apply ToNumber_throws in E2. subst e2. intros H. injection H as <-. now left. }
    change (lift (Normal s)) with (ret s). rewrite bind_ret_l.
    intros H. left.
    apply (respond_run_class
             (call_getDomains (Some (number_or t SpaceshipClient.ten))
                (Some (number_or s SpaceshipClient.zero))) _ e H). }
  assert (Hone : forall key message (op : string -> Operation) line,
            In name (map Tool.name ListTools) ->
            outcome (bind (lift (ToString (NumberToString P) (OptGet arguments key)))
                       (fun a => if not_string a
                                 then throw (McpError InvalidParams message)
                                 else respond P (run P axios (op a)) (line a))) = Throw e ->
            is_client_error e = true
            \/ (exists m, e = McpError InvalidParams m
                          /\ In name (map Tool.name ListTools) /\ name <> "get_domains")
            \/ (exists m, e = McpError MethodNotFound m
                          /\ ~ In name (map Tool.name ListTools))).
  { intros key message op line Hin.
    destruct (ToString _ _) as [a|e1] eqn:E1.
    2:{ apply ToString_throws in E1. subst e1. intros H. injection H as <-. now left. }
    change (lift (Normal a)) with (ret a). rewrite bind_ret_l.
    destruct (not_string a).
    - intros H. injection H as <-. right. left. eauto.
    - intros H. left. now apply (respond_run_class (op a) _ e H). }
  destruct (String.eqb_spec name "check_domain_availability") as [->|N2].
  { apply (Hone "domain" _ call_checkDomainAvailability
             (fun a => "Error checking availability for " ++ a ++ ":")).
    simpl. tauto. }
  destruct (String.eqb_spec name "get_domain_info") as [->|N3].
  { apply (Hone "domain" _ call_getDomainInfo
             (fun a => "Error getting info for " ++ a ++ ":")).
    simpl. tauto. }
  destruct (String.eqb_spec name "register_domain") as [->|N4].
  { destruct (ToString _ (OptGet arguments "domain")) as [a|e1] eqn:E1.
    2:{ apply ToString_throws in E1. subst e1. intros H. injection H as <-. now left. }
    change (lift (Normal a)) with (ret a). rewrite bind_ret_l.
    destruct (ToString _ (OptGet arguments "contactId")) as [b|e2] eqn:E2.
    2:{ apply ToString_throws in E2. subst e2. intros H. injection H as <-. now left. }
    change (lift (Normal b)) with (ret b). rewrite bind_ret_l.
    destruct (not_string a || not_string b).
    - intros H. injection H as <-. right. left. eexists. split; [reflexivity|].
      split; [simpl; tauto | discriminate].
    - intros H. left. now apply (respond_run_class (call_registerDomain a b) _ e H). }
  destruct (String.eqb_spec name "get_dns_records") as [->|N5].
  { apply (Hone "domain" _ call_getDnsRecords
             (fun a => "Error getting DNS records for " ++ a ++ ":")).
    simpl. tauto. }
  destruct (String.eqb_spec name "get_contact") as [->|N6].
  { apply (Hone "contactId" _ call_getContact
             (fun a => "Error getting contact " ++ a ++ ":")).
    simpl. tauto. }
  destruct (String.eqb_spec name "get_async_operation") as [->|N7].
  { apply (Hone "operationId" _ call_getAsyncOperation
             (fun a => "Error getting operation " ++ a ++ ":")).
    simpl. tauto. }
  intros H. injection H as <-. right. right. eexists. split; [reflexivity|].
  simpl. intuition congruence.
Qed.

(** X7: the errors of a tool call.  MethodNotFound is raised only for a
    name outside the catalog, InvalidParams only by a tool of the catalog
    other than [get_domains]; an InvalidRequest error or an Axios error as
    it came is never raised. *)
Theorem call_tool_error_classes (name : string) (arguments : value) (e : Thrown) :
  outcome (CallTool P axios name arguments) = Throw e ->
  (forall m, e = McpError MethodNotFound m -> ~ In name (map Tool.name ListTools))
  /\ (forall m, e = McpError InvalidParams m ->
      In name (map Tool.name ListTools) /\ name <> "get_domains")
  /\ (forall m, e <> McpError InvalidRequest m)
  /\ (forall r m, e <> AxiosError r m).
Proof.
  intros H. apply call_tool_throws in H.
  destruct H as [Hc | [[m [-> [Hin Hne]]] | [m [-> Hnot]]]].
  - destruct e as [[] msg|msg|r msg|msg]; try discriminate Hc;
      repeat split; intros; discriminate.
  - repeat split; try (intros; discriminate); tauto.
  - repeat split; try (intros; discriminate); tauto.
Qed.

End Taxonomy.

(** * Further properties: the resources *)

Section Resources.
Import JS JSFacts Eff Statements Shapes Server ServerFacts.

Variable P : Platform.
Variable axios : Transport.

Lemma bind_lift_trace {A B} (c : completion A) (k : A -> M B) :
  (forall a, trace (k a) = []) -> trace (bind (lift c) k) = [].
Proof.
  intros Hk. destruct c as [a|e]; [|reflexivity].
  change (lift (Normal a)) with (ret a). rewrite bind_ret_l. apply Hk.
Qed.

Lemma bind_lift_throws {A B} (c : completion A) (k : A -> M B) e :
  (forall e', c = Throw e' -> exists m, e' = TypeError m) ->
  (forall a, outcome (k a) = Throw e -> exists m, e = TypeError m) ->
  outcome (bind (lift c) k) = Throw e -> exists m, e = TypeError m.
Proof.
  intros Hc Hk. destruct c as [a|e'].
  - change (lift (Normal a)) with (ret a). rewrite bind_ret_l. apply Hk.
  - simpl. intros H. injection H as <-. now apply Hc.
Qed.

Lemma interpolate_throws v e' :
  ToString (NumberToString P) v = Throw e' -> exists m, e' = TypeError m.
Proof. intros H. apply ToString_throws in H. subst e'. unfold cannot_convert. eauto. Qed.

(** The function mapped over the domains makes no request, writes nothing
    and throws nothing but a [TypeError]. *)
Lemma resource_of_trace d : trace (resource_of P d) = [].
Proof.
  unfold resource_of, interpolate, SpaceshipClient.interpolate.
  repeat (apply bind_lift_trace; intros ?). reflexivity.
Qed.

Lemma resource_of_throws d e :
  outcome (resource_of P d) = Throw e -> exists m, e = TypeError m.
Proof.
  unfold resource_of, interpolate, SpaceshipClient.interpolate.
  repeat (apply bind_lift_throws;
          [ first [ apply Get_raises | apply interpolate_throws ] | intros ? ]).
  discriminate.
Qed.

Lemma resource_of_nullish d :
  is_nullish d = true -> exists m, outcome (resource_of P d) = Throw (TypeError m).
Proof. destruct d; try discriminate; intros _; simpl; eauto. Qed.

Lemma map_resources_trace items : trace (map_resources P items) = [].
Proof.
  induction items as [|d rest IH]; [reflexivity|].
  cbn [map_resources].
  pose proof (resource_of_trace d) as Hd.
  destruct (resource_of P d) as [t [r|e]]; simpl in Hd; subst t; [|reflexivity].
  change (@pair (list Event) (completion Resource.t) [] (Normal r)) with (ret r).
  rewrite bind_ret_l.
  destruct (map_resources P rest) as [t' [rs|e]]; simpl in IH; subst t'; reflexivity.
Qed.

Lemma map_resources_throws items e :
  outcome (map_resources P items) = Throw e -> exists m, e = TypeError m.
Proof.
  induction items as [|d rest IH]; [discriminate|].
  cbn [map_resources].
  pose proof (resource_of_trace d) as Hd. pose proof (resource_of_throws d) as He.
  destruct (resource_of P d) as [t [r|e']]; simpl in Hd; subst t.
  - change (@pair (list Event) (completion Resource.t) [] (Normal r)) with (ret r).
    rewrite bind_ret_l.
    pose proof (map_resources_trace rest) as Ht.
    destruct (map_resources P rest) as [t' [rs|e']]; simpl in *; [discriminate|].
    intros H. injection H as <-. now apply IH.
  - simpl. intros H. injection H as <-. now apply He.
Qed.

Lemma map_resources_nullish items :
  existsb is_nullish items = true ->
  exists m, outcome (map_resources P items) = Throw (TypeError m).
Proof.
  induction items as [|d rest IH]; [discriminate|].
  cbn [existsb map_resources]. intros H.
  pose proof (resource_of_trace d) as Hd. pose proof (resource_of_throws d) as He.
  destruct (is_nullish d) eqn:En.
  - destruct (resource_of_nullish d En) as [m Hm].
    destruct (resource_of P d) as [t [r|e']]; simpl in *; [discriminate|].
    injection Hm as ->. eauto.
  - simpl in H. destruct (IH H) as [m Hm].
    destruct (resource_of P d) as [t [r|e']]; simpl in Hd; subst t.
    + change (@pair (list Event) (completion Resource.t) [] (Normal r)) with (ret r).
      rewrite bind_ret_l.
      destruct (map_resources P rest) as [t' [rs|e']]; simpl in *; [discriminate|].
      injection Hm as ->. eauto.
    + destruct (He e' eq_refl) as [m' ->]. simpl. eauto.
Qed.

Lemma domains_map_trace v : trace (domains_map P v) = [].
Proof. destruct v; try reflexivity. apply map_resources_trace. Qed.

Lemma domains_map_throws v e :
  outcome (domains_map P v) = Throw e -> exists m, e = TypeError m.
Proof.
  destruct v; simpl; try (intros H; injection H as <-; eauto).
  apply map_resources_throws.
Qed.

Lemma map_resources_domains (ds : list Domain) :
  map_resources P (map domain_value ds) = ret (map descriptor ds).
Proof.
  induction ds as [|d rest IH]; [reflexivity|].
  cbn [map map_resources]. rewrite IH.
  assert (E : resource_of P (domain_value d) = ret (descriptor d)) by reflexivity.
  rewrite E. now rewrite !bind_ret_l.
Qed.

(** X8: list-resources never raises an error, and always makes the one
    request [GET /domains] with [take = 10] and [skip = 0]. *)
Theorem list_resources_never_fails :
  upstream_calls (trace (ListResources P axios))
  = [list_domains_request SpaceshipClient.ten SpaceshipClient.zero]
  /\ exists resources, outcome (ListResources P axios) = Normal resources.
Proof.
  split.
  - unfold ListResources. rewrite try_catch_calls by reflexivity.
    rewrite bind_pure_calls by (intros a; now rewrite domains_map_trace).
    apply (run_calls P axios (call_getDomains None None)).
  - unfold ListResources.
    destruct (bind (SpaceshipClient.getDomains P axios None None) _) as [t [rs|e]];
      simpl; eauto.
Qed.

(** X9: when the body of the answer holds the Domains under [domains],
    list-resources shows one resource for each, in their order, under the
    URI [spaceship://domains/<name>]. *)
Theorem list_resources_describes_domains (body : value) (ds : list Domain) :
  axios (list_domains_request SpaceshipClient.ten SpaceshipClient.zero) = Resolved body ->
  Get body "domains" = Normal (JArray (map domain_value ds)) ->
  ListResources P axios
  = ([Http (list_domains_request SpaceshipClient.ten SpaceshipClient.zero)],
     Normal (map descriptor ds)).
Proof.
  intros Hb Hd. unfold ListResources.
  change (SpaceshipClient.getDomains P axios None None)
    with (run P axios (call_getDomains None None)).
  rewrite (run_resolved P axios (call_getDomains None None) body Hb).
  unfold project. cbn [projection]. rewrite Hd.
  unfold bind, domains_map. rewrite map_resources_domains. reflexivity.
Qed.

(** X10: the listing is all or nothing.  When [domains] is not an array, or
    is an array with a [null] or [undefined] element, list-resources
    answers the empty list, after one line on [console.error] with the
    [TypeError]. *)
Theorem list_resources_all_or_nothing (body v : value) :
  axios (list_domains_request SpaceshipClient.ten SpaceshipClient.zero) = Resolved body ->
  Get body "domains" = Normal v ->
  (is_array v = false \/ exists items, v = JArray items /\ existsb is_nullish items = true) ->
  exists m,
    ListResources P axios
    = ([Http (list_domains_request SpaceshipClient.ten SpaceshipClient.zero);
        ConsoleError "Error listing domains:" (TypeError m)],
       Normal []).
Proof.
  intros Hb Hd Hv. unfold ListResources.
  change (SpaceshipClient.getDomains P axios None None)
    with (run P axios (call_getDomains None None)).
  rewrite (run_resolved P axios (call_getDomains None None) body Hb).
  unfold project. cbn [projection]. rewrite Hd.
  change (@pair (list Event) (completion value)
            [Http (request_of (call_getDomains None None))] (Normal v))
    with (bind (await (fun _ => Resolved v) (request_of (call_getDomains None None))) ret).
  assert (Hthrow : exists m, outcome (domains_map P v) = Throw (TypeError m)).
  { destruct Hv as [Hv | [items [-> Hn]]].
    - destruct v; try discriminate Hv; simpl; eauto.
    - now apply map_resources_nullish. }
  destruct Hthrow as [m Hm]. exists m.
  pose proof (domains_map_trace v) as Ht.
  unfold bind, await, try_catch, ret. cbn [app].
  destruct (domains_map P v) as [t [rs|e]]; simpl in *; [discriminate|].
  injection Hm as ->. subst t. reflexivity.
Qed.

End Resources.

Section Reading.
Import JS JSFacts Eff Statements Shapes Server ServerFacts.

Variable P : Platform.
Variable axios : Transport.

(** X11: [get_domains] serializes the [domains] property of the answer as
    it is; when the body is an object without that property, the call
    still succeeds, with a text block whose text is [undefined]. *)
Theorem get_domains_returns_domains (arguments body : value) (t s : number) :
  ToNumber (NumberToString P) (StringToNumber P) (OptGet arguments "take") = Normal t ->
  ToNumber (NumberToString P) (StringToNumber P) (OptGet arguments "skip") = Normal s ->
  axios (list_domains_request (number_or t SpaceshipClient.ten)
           (number_or s SpaceshipClient.zero)) = Resolved body ->
  (forall v,
     Get body "domains" = Normal v ->
     CallTool P axios "get_domains" arguments
     = ([Http (list_domains_request (number_or t SpaceshipClient.ten)
                 (number_or s SpaceshipClient.zero))],
        Normal [text_block P v]))
  /\ (forall props,
        body = JObject props -> lookup "domains" props = None ->
        outcome (CallTool P axios "get_domains" arguments)
        = Normal [{| Content.type := "text"; Content.text := None |}]).
Proof.
  intros Ht Hs Hb.
  assert (Hgen : forall v,
            Get body "domains" = Normal v ->
            CallTool P axios "get_domains" arguments
            = ([Http (list_domains_request (number_or t SpaceshipClient.ten)
                        (number_or s SpaceshipClient.zero))],
               Normal [text_block P v])).
  { intros v Hv.
    unfold CallTool, Number_. simpl String.eqb. cbv iota.
    rewrite Ht. change (lift (Normal t)) with (ret t). rewrite bind_ret_l.
    rewrite Hs. change (lift (Normal s)) with (ret s). rewrite bind_ret_l.
    set (op := call_getDomains (Some (number_or t SpaceshipClient.ten))
                 (Some (number_or s SpaceshipClient.zero))).
    change (SpaceshipClient.getDomains P axios _ _) with (run P axios op).
    rewrite (run_resolved P axios op body Hb).
    unfold project. cbn [projection op]. rewrite Hv. reflexivity. }
  split; [exact Hgen|].
  intros props -> Hl. rewrite (Hgen JUndefined); [reflexivity|].
  simpl. now rewrite Hl.
Qed.

Lemma index_name rest :
  SpaceshipClient.getDomainInfo P axios (index ("domains" :: rest) 1)
  = run P axios (call_getDomainInfo (name_or_undefined rest)).
Proof. destruct rest; reflexivity. Qed.

(** How the read goes on, once the URI is accepted. *)
Lemma read_accepted (uri : string) (url : URL.t) (rest : list string) :
  URL.parse (special_scheme_state P) (ipv6_parser P) uri = Some url ->
  URL.protocol url = "spaceship:" ->
  pathParts url = "domains" :: rest ->
  (forall d,
     outcome (run P axios (call_getDomainInfo (name_or_undefined rest))) = Normal d ->
     ReadResource P axios uri
     = ([Http (get_request ("/domains/" ++ name_or_undefined rest))],
        Normal [{| ResourceContents.uri := uri;
                   ResourceContents.mimeType := "application/json";
                   ResourceContents.text := JSON_stringify (NumberToString P) d |}]))
  /\ (forall e,
        outcome (run P axios (call_getDomainInfo (name_or_undefined rest))) = Throw e ->
        ReadResource P axios uri
        = ([Http (get_request ("/domains/" ++ name_or_undefined rest));
            ConsoleError ("Error fetching domain info for " ++ name_or_undefined rest ++ ":") e],
           Throw (McpError InvalidRequest
                    ("Domain " ++ name_or_undefined rest ++ " not found")))).
Proof.
  intros Hparse Hproto Hparts. unfold ReadResource.
  rewrite Hparse, Hproto, Hparts.
  change (String.eqb "spaceship:" "spaceship:") with true. cbv iota.
  change (strict_equal_string (index ("domains" :: rest) 0) "domains") with true.
  cbv iota. rewrite index_name.
  pose proof (run_trace P axios (call_getDomainInfo (name_or_undefined rest))) as Ht.
  destruct (run P axios (call_getDomainInfo (name_or_undefined rest))) as [t [d|e]];
    simpl in Ht; subst t; split; intros x Hx; simpl in Hx; try discriminate Hx;
    injection Hx as <-.
  - reflexivity.
  - destruct rest; reflexivity.
Qed.

(** X12: once the scheme is [spaceship] and the first path part is
    [domains], the handler asks for the second path part and ignores any
    further part; without a second part it asks for the domain
    [undefined]. *)
Theorem read_fetches_second_part (uri : string) (url : URL.t) (rest : list string) :
  URL.parse (special_scheme_state P) (ipv6_parser P) uri = Some url ->
  URL.protocol url = "spaceship:" ->
  pathParts url = "domains" :: rest ->
  upstream_calls (trace (ReadResource P axios uri))
  = [get_request ("/domains/" ++ name_or_undefined rest)].
Proof.
  intros Hparse Hproto Hparts.
  destruct (read_accepted uri url rest Hparse Hproto Hparts) as [Hok Hfail].
  destruct (outcome (run P axios (call_getDomainInfo (name_or_undefined rest))))
    as [d|e] eqn:E.
  - now rewrite (Hok d).
  - now rewrite (Hfail e).
Qed.

(** X13: an answer of the upstream is returned as one contents entry that
    carries the URI of the request as it was sent, the JSON mime type and
    the serialized body, whatever the body is. *)
Theorem read_returns_body (uri : string) (url : URL.t) (rest : list string) (body : value) :
  URL.parse (special_scheme_state P) (ipv6_parser P) uri = Some url ->
  URL.protocol url = "spaceship:" ->
  pathParts url = "domains" :: rest ->
  axios (get_request ("/domains/" ++ name_or_undefined rest)) = Resolved body ->
  ReadResource P axios uri
  = ([Http (get_request ("/domains/" ++ name_or_undefined rest))],
     Normal [{| ResourceContents.uri := uri;
                ResourceContents.mimeType := "application/json";
                ResourceContents.text := JSON_stringify (NumberToString P) body |}]).
Proof.
  intros Hparse Hproto Hparts Hb.
  apply (proj1 (read_accepted uri url rest Hparse Hproto Hparts)).
  now rewrite (run_resolved P axios
                 (call_getDomainInfo (name_or_undefined rest)) body Hb).
Qed.

(** X14: every rejection of the upstream, whatever its cause, makes the
    client raise an error, which the handler writes in one line on
    [console.error] and turns into the same InvalidRequest error that
    the domain was not found. *)
Theorem read_failure_collapsed (uri : string) (url : URL.t) (rest : list string) :
  URL.parse (special_scheme_state P) (ipv6_parser P) uri = Some url ->
  URL.protocol url = "spaceship:" ->
  pathParts url = "domains" :: rest ->
  (forall body, axios (get_request ("/domains/" ++ name_or_undefined rest)) <> Resolved body) ->
  exists e,
    outcome (SpaceshipClient.getDomainInfo P axios (JString (name_or_undefined rest)))
    = Throw e
    /\ ReadResource P axios uri
       = ([Http (get_request ("/domains/" ++ name_or_undefined rest));
           ConsoleError
             ("Error fetching domain info for " ++ name_or_undefined rest ++ ":") e],
          Throw (McpError InvalidRequest
                   ("Domain " ++ name_or_undefined rest ++ " not found"))).
Proof.
  intros Hparse Hproto Hparts Hrej.
  destruct (read_accepted uri url rest Hparse Hproto Hparts) as [_ Hfail].
  change (SpaceshipClient.getDomainInfo P axios (JString (name_or_undefined rest)))
    with (run P axios (call_getDomainInfo (name_or_undefined rest))).
  destruct (outcome (run P axios (call_getDomainInfo (name_or_undefined rest))))
    as [d|e] eqn:E.
  - exfalso. rewrite run_projects in E. unfold client_method, await in E.
    change (request_of (call_getDomainInfo (name_or_undefined rest)))
      with (get_request ("/domains/" ++ name_or_undefined rest)) in E.
    destruct (axios (get_request ("/domains/" ++ name_or_undefined rest)))
      as [body | response message | message] eqn:Ea.
    + now apply (Hrej body).
    + cbv beta iota delta [bind try_catch lift] in E.
      unfold SpaceshipClient.catch_block, SpaceshipClient.interpolate, lift, bind in E.
      destruct (ToString _ _); discriminate E.
    + discriminate E.
  - exists e. split; [reflexivity | now apply Hfail].
Qed.

End Reading.

(** * Further properties: URIs that do not parse *)

Module ParseFacts.
Import Str StrFacts URL Shapes.

Lemma all_filter q p s : all q s = true -> all q (filter p s) = true.
Proof.
  induction s as [|x s IH]; simpl; [reflexivity|].
  intros H. apply andb_true_iff in H as [Hx Hs].
  destruct (p x); simpl; [rewrite Hx|]; now apply IH.
Qed.

Lemma all_drop_while q p s : all q s = true -> all q (drop_while p s) = true.
Proof.
  induction s as [|x s IH]; simpl; [reflexivity|].
  intros H. destruct (p x); [|exact H].
  apply andb_true_iff in H as [_ Hs]. now apply IH.
Qed.

Lemma all_rev_onto q s acc :
  all q s = true -> all q acc = true -> all q (rev_onto s acc) = true.
Proof.
  revert acc. induction s as [|x s IH]; intros acc Hs Ha; [exact Ha|].
  simpl in *. apply andb_true_iff in Hs as [Hx Hs].
  apply IH; [exact Hs|]. simpl. now rewrite Hx.
Qed.

Lemma all_trim q p s : all q s = true -> all q (trim p s) = true.
Proof.
  intros H. unfold trim, rev.
  apply all_rev_onto; [|reflexivity]. apply all_drop_while.
  apply all_rev_onto; [|reflexivity]. now apply all_drop_while.
Qed.

Lemma all_break_rest q p s : all q s = true -> all q (snd (break p s)) = true.
Proof.
  induction s as [|x s IH]; [reflexivity|].
  intros H. cbn [break]. destruct (p x); [exact H|].
  simpl in H. apply andb_true_iff in H as [_ Hs].
  specialize (IH Hs). destruct (break p s) as [a b]. exact IH.
Qed.

(** A string without a colon has no scheme: it does not parse. *)
Lemma parse_without_colon special ipv6 input :
  all (fun c => negb (has_colon c)) input = true -> parse special ipv6 input = None.
Proof.
  intros H. unfold parse.
  set (s := filter _ (trim _ input)).
  assert (Hs : all (fun c => negb (has_colon c)) s = true).
  { apply all_filter. now apply all_trim. }
  destruct s as [|c r]; [reflexivity|].
  destruct (is_alpha c); [|reflexivity].
  pose proof (all_break_rest _ (fun x => negb (is_scheme_char x)) _ Hs) as Hr.
  destruct (break _ (String c r)) as [a rest]. simpl in Hr.
  destruct rest as [|d rest']; [reflexivity|].
  simpl in Hr. apply andb_true_iff in Hr as [Hd _].
  unfold has_colon in Hd. apply negb_true_iff in Hd. now rewrite Hd.
Qed.

End ParseFacts.

Section Unparsed.
Import JS Eff Statements Shapes Server.

Variable P : Platform.
Variable axios : Transport.

(** X15: a URI without a colon, such as a bare domain name, makes the
    handler throw the [TypeError] of [new URL], not a protocol error, and
    no request is made. *)
Theorem read_without_scheme_throws (uri : string) :
  Str.all (fun c => negb (has_colon c)) uri = true ->
  ReadResource P axios uri = ([], Throw (TypeError "Invalid URL")).
Proof.
  intros H. unfold ReadResource.
  now rewrite (ParseFacts.parse_without_colon _ _ uri H).
Qed.

End Unparsed.

(** * Further properties: start-up *)

Module StartupFacts.
Import JS Startup.

Lemma env_or_empty env x :
  Str.is_empty (env_or env x EmptyString) = negb (ToBoolean (env_value env x)).
Proof.
  unfold env_or, env_value, or_else. destruct (env x) as [s|]; [|reflexivity].
  simpl. destruct s; reflexivity.
Qed.

End StartupFacts.

(** X16: [main] writes its two warning lines exactly when the client has
    been configured with an empty API key or an empty API secret, and
    writes no other warning. *)
Theorem warning_iff_credentials_empty (env : Startup.Env) (connect : JS.completion unit) :
  Startup.warnings (fst (Startup.start env connect))
  = if Str.is_empty (Startup.apiKey (Startup.config env))
       || Str.is_empty (Startup.apiSecret (Startup.config env))
    then Startup.credentials_warning else [].
Proof.
  unfold Startup.config. cbn [Startup.apiKey Startup.apiSecret].
  rewrite !StartupFacts.env_or_empty.
  unfold Startup.start, Startup.main.
  destruct (negb _ || negb _); destruct connect as [u|e]; reflexivity.
Qed.

(** X17: the process is made to exit, with code 1 and the line
    [Server error:] last, exactly when the connection of the transport
    fails; the environment, and so a missing credential, has no part in
    it. *)
Theorem exit_only_when_connect_fails (env : Startup.Env) :
  (forall u,
     snd (Startup.start env (JS.Normal u)) = None
     /\ last (fst (Startup.start env (JS.Normal u))) (Startup.Warn EmptyString)
        = Startup.Error "Spaceship.dev MCP server running on stdio")
  /\ (forall e,
        snd (Startup.start env (JS.Throw e)) = Some 1%Z
        /\ last (fst (Startup.start env (JS.Throw e))) (Startup.Warn EmptyString)
           = Startup.ErrorWith "Server error:" e).
Proof.
  unfold Startup.start, Startup.main. split.
  - intros u. cbn [fst snd]. split; [reflexivity|]. apply last_last.
  - intros e. cbn [fst snd]. split; [reflexivity|]. apply last_last.
Qed.

(** * Further properties: how the handlers compose *)

Section Composition.
Import JS JSFacts Eff Statements Shapes Server ServerFacts.

Variable P : Platform.
Variable axios : Transport.

(** X18: the resource that list-resources shows for a Domain cannot be read
    back: when the name is a plain segment other than [domains],
    read-resource refuses the URI of the resource without a request. *)
Theorem listed_resource_unreadable (d : Domain) :
  plain (name d) -> name d <> "domains" ->
  ReadResource P axios (Resource.uri (descriptor d))
  = ([], Throw (McpError InvalidRequest
                  ("Unsupported resource URI: " ++ Resource.uri (descriptor d)))).
Proof. intros Hp Hn. now apply listed_uri_refused. Qed.

(** X19: a tool called without an argument bag does not stop: each required
    argument is converted to the string [undefined], and the request of
    the operation on these strings is made. *)
Theorem absent_bag_requests_undefined (tool : Tool.t) :
  In tool ListTools -> required_of tool <> [] ->
  exists op,
    operation_for (Tool.name tool) (map (fun _ => "undefined") (required_of tool)) = Some op
    /\ upstream_calls (trace (CallTool P axios (Tool.name tool) JUndefined)) = [request_of op].
Proof.
  intros Hin Hreq.
  assert (Hconv : converted P JUndefined (required_of tool)
                  = Normal (map (fun _ => "undefined") (required_of tool))).
  { simpl in Hin.
    destruct Hin as [<-|[<-|[<-|[<-|[<-|[<-|[<-|[]]]]]]]]; reflexivity. }
  assert (He : existsb Str.is_empty (map (fun _ => "undefined") (required_of tool)) = false).
  { simpl in Hin.
    destruct Hin as [<-|[<-|[<-|[<-|[<-|[<-|[<-|[]]]]]]]]; reflexivity. }
  pose proof (dispatch_shape P axios tool JUndefined _ Hin Hreq Hconv) as H.
  rewrite He in H. destruct H as [op [Hop ->]].
  exists op. split; [exact Hop|].
  rewrite respond_calls. apply run_calls.
Qed.

End Composition.

(** * The further properties at concrete requests *)

Module FurtherExamples.
Import JS Eff Statements Shapes Server.

(** [getDnsRecords] returns the [records] of the body. *)
Lemma client_returns_body_witness :
  run Sample.platform (Sample.answering (JObject [("records", JArray [])]))
    (call_getDnsRecords "example.com")
  = ([Http (get_request "/domains/example.com/dns")], Normal (JArray [])).
Proof.
  apply (client_returns_body Sample.platform
           (Sample.answering (JObject [("records", JArray [])]))
           (call_getDnsRecords "example.com") (JObject [("records", JArray [])])).
  reflexivity.
Defined.

(** A [null] body makes [getDomains] raise a [TypeError], which is one of
    the three classes. *)
Lemma client_error_classes_witness :
  outcome (run Sample.platform (Sample.answering JNull) (call_getDomains None None))
  = Throw (TypeError "Cannot read properties of null (reading 'domains')")
  /\ is_client_error (TypeError "Cannot read properties of null (reading 'domains')") = true.
Proof.
  split; [reflexivity|].
  apply (client_error_classes Sample.platform (Sample.answering JNull)
           (call_getDomains None None)).
  reflexivity.
Defined.

(** An empty array for [contactId] converts to the empty string. *)
Lemma empty_argument_refused_witness :
  CallTool Sample.platform Sample.upstream_down "get_contact"
    (JObject [("contactId", JArray [])])
  = ([], Throw (McpError InvalidParams "Contact ID is required")).
Proof.
  apply (empty_argument_refused Sample.platform Sample.upstream_down (tool_at 5)
           (JObject [("contactId", JArray [])]) [EmptyString]).
  - simpl. tauto.
  - discriminate.
  - reflexivity.
  - reflexivity.
Defined.

(** [register_domain] posts the registration and returns the answer as
    one text block. *)
Lemma tool_calls_its_operation_witness :
  CallTool Sample.platform (Sample.answering (JObject [("operationId", JString "op1")]))
    "register_domain"
    (JObject [("domain", JString "example.com"); ("contactId", JString "c1")])
  = ([Http {| method := POST; url := "/domains"; params := [];
              data := JObject [("domain", JString "example.com");
                               ("contactId", JString "c1")] |}],
     Normal [text_block Sample.platform (JObject [("operationId", JString "op1")])]).
Proof.
  destruct (tool_calls_its_operation Sample.platform
              (Sample.answering (JObject [("operationId", JString "op1")]))
              (tool_at 3)
              (JObject [("domain", JString "example.com"); ("contactId", JString "c1")])
              ["example.com"; "c1"])
    as [op [Hop [_ Hbody]]].
  - simpl. tauto.
  - discriminate.
  - reflexivity.
  - reflexivity.
  - injection Hop as <-.
    apply (Hbody (JObject [("operationId", JString "op1")])); reflexivity.
Defined.

(** [get_domain_info] against an upstream that answers 503. *)
Lemma tool_failure_logged_once_witness :
  CallTool Sample.platform Sample.upstream_down "get_domain_info"
    (JObject [("domain", JString "example.com")])
  = ([Http (get_request "/domains/example.com");
      ConsoleError "Error getting info for example.com:"
        (McpError InternalError "Spaceship API error: upstream down")],
     Throw (McpError InternalError "Spaceship API error: upstream down")).
Proof.
  destruct (tool_failure_logged_once Sample.platform Sample.upstream_down (tool_at 2)
              (JObject [("domain", JString "example.com")]) ["example.com"]
              (McpError InternalError "Spaceship API error: upstream down"))
    as [op [Hop Hfail]].
  - simpl. tauto.
  - discriminate.
  - reflexivity.
  - reflexivity.
  - injection Hop as <-. apply Hfail. reflexivity.
Defined.

(** A [domain] that is an object with a [toString] property of its own. *)
Lemma unconvertible_argument_throws_witness :
  CallTool Sample.platform Sample.upstream_down "check_domain_availability"
    (JObject [("domain", JObject [("toString", JNumber (number_of_Z 1))])])
  = ([], Throw (TypeError "Cannot convert object to primitive value")).
Proof.
  apply (unconvertible_argument_throws Sample.platform Sample.upstream_down (tool_at 1)
           (JObject [("domain", JObject [("toString", JNumber (number_of_Z 1))])])
           cannot_convert).
  - simpl. tauto.
  - reflexivity.
Defined.

(** The MethodNotFound error of [delete_domain] tells that the name is not
    in the catalog. *)
Lemma call_tool_error_classes_witness :
  outcome (CallTool Sample.platform Sample.upstream_down "delete_domain" JUndefined)
  = Throw (McpError MethodNotFound "Unknown tool: delete_domain")
  /\ ~ In "delete_domain" (map Tool.name ListTools).
Proof.
  split; [reflexivity|].
  apply (proj1 (call_tool_error_classes Sample.platform Sample.upstream_down
                  "delete_domain" JUndefined
                  (McpError MethodNotFound "Unknown tool: delete_domain") eq_refl)
           "Unknown tool: delete_domain").
  reflexivity.
Defined.

(** A listing of the one Domain of the round-trip example. *)
Lemma list_resources_describes_domains_witness :
  outcome (ListResources Sample.platform
             (Sample.answering (JObject [("domains", JArray [Sample.example_domain])])))
  = Normal [{| Resource.uri := "spaceship://domains/example.com";
               Resource.mimeType := "application/json";
               Resource.name := JString "example.com";
               Resource.description :=
                 "Domain: example.com (Status: active, Expires: 2026-01-01)" |}].
Proof.
  rewrite (list_resources_describes_domains Sample.platform
             (Sample.answering (JObject [("domains", JArray [Sample.example_domain])]))
             (JObject [("domains", JArray [Sample.example_domain])])
             [{| id := "d1"; name := "example.com"; status := "active";
                 expiresAt := "2026-01-01"; autoRenew := true |}]);
    reflexivity.
Defined.

(** One [null] among the domains empties the listing. *)
Lemma list_resources_all_or_nothing_witness :
  outcome (ListResources Sample.platform
             (Sample.answering (JObject [("domains", JArray [Sample.example_domain; JNull])])))
  = Normal [].
Proof.
  destruct (list_resources_all_or_nothing Sample.platform
              (Sample.answering (JObject [("domains", JArray [Sample.example_domain; JNull])]))
              (JObject [("domains", JArray [Sample.example_domain; JNull])])
              (JArray [Sample.example_domain; JNull]))
    as [m Hm].
  - reflexivity.
  - reflexivity.
  - right. exists [Sample.example_domain; JNull]. split; reflexivity.
  - rewrite Hm. reflexivity.
Defined.

(** A body without [domains]. *)
Lemma get_domains_returns_domains_witness :
  outcome (CallTool Sample.platform (Sample.answering (JObject [])) "get_domains" JUndefined)
  = Normal [{| Content.type := "text"; Content.text := None |}].
Proof.
  apply (proj2 (get_domains_returns_domains Sample.platform
                  (Sample.answering (JObject [])) JUndefined (JObject []) NaN NaN
                  eq_refl eq_refl eq_refl) []);
    reflexivity.
Defined.

(** A URI with no name after [domains]. *)
Lemma read_fetches_second_part_witness :
  upstream_calls
    (trace (ReadResource Sample.platform (Sample.answering Sample.example_domain)
              "spaceship:/domains"))
  = [get_request "/domains/undefined"].
Proof.
  apply (read_fetches_second_part Sample.platform
           (Sample.answering Sample.example_domain) "spaceship:/domains"
           {| URL.scheme := "spaceship"; URL.host := None;
              URL.path_of := URL.Segments ["domains"] |}
           []);
    vm_compute; reflexivity.
Defined.

(** A URI with a part after the name. *)
Lemma read_returns_body_witness :
  ReadResource Sample.platform (Sample.answering Sample.example_domain)
    "spaceship://registry/domains/example.com/dns"
  = ([Http (get_request "/domains/example.com")],
     Normal [{| ResourceContents.uri := "spaceship://registry/domains/example.com/dns";
                ResourceContents.mimeType := "application/json";
                ResourceContents.text :=
                  JSON_stringify Sample.integer_NumberToString Sample.example_domain |}]).
Proof.
  apply (read_returns_body Sample.platform (Sample.answering Sample.example_domain)
           "spaceship://registry/domains/example.com/dns"
           {| URL.scheme := "spaceship"; URL.host := Some "registry";
              URL.path_of := URL.Segments ["domains"; "example.com"; "dns"] |}
           ["example.com"; "dns"] Sample.example_domain);
    vm_compute; reflexivity.
Defined.

(** A rejection that is not an Axios error is logged as it is and
    reported as a domain that was not found. *)
Lemma read_failure_collapsed_witness :
  ReadResource Sample.platform Sample.foreign_failure
    "spaceship://registry/domains/example.com"
  = ([Http (get_request "/domains/example.com");
      ConsoleError "Error fetching domain info for example.com:"
        (OtherError "unexpected failure")],
     Throw (McpError InvalidRequest "Domain example.com not found")).
Proof.
  destruct (read_failure_collapsed Sample.platform Sample.foreign_failure
              "spaceship://registry/domains/example.com"
              {| URL.scheme := "spaceship"; URL.host := Some "registry";
                 URL.path_of := URL.Segments ["domains"; "example.com"] |}
              ["example.com"])
    as [e [He Hread]].
  - vm_compute. reflexivity.
  - reflexivity.
  - vm_compute. reflexivity.
  - intros body. discriminate.
  - vm_compute in He. injection He as <-. exact Hread.
Defined.

(** A bare domain name. *)
Lemma read_without_scheme_throws_witness :
  ReadResource Sample.platform (Sample.answering Sample.example_domain) "example.com"
  = ([], Throw (TypeError "Invalid URL")).
Proof.
  apply (read_without_scheme_throws Sample.platform
           (Sample.answering Sample.example_domain) "example.com").
  reflexivity.
Defined.

End FurtherExamples.

Module CompositionExamples.
Import JS Eff Statements Shapes Server.

(** The resource of the Domain [example.com]. *)
Lemma listed_resource_unreadable_witness :
  ReadResource Sample.platform (Sample.answering Sample.example_domain)
    "spaceship://domains/example.com"
  = ([], Throw (McpError InvalidRequest
                  "Unsupported resource URI: spaceship://domains/example.com")).
Proof.
  apply (listed_resource_unreadable Sample.platform
           (Sample.answering Sample.example_domain)
           {| id := "d1"; name := "example.com"; status := "active";
              expiresAt := "2026-01-01"; autoRenew := true |}).
  - reflexivity.
  - discriminate.
Defined.

(** [get_async_operation] without arguments asks for the operation
    [undefined]. *)
Lemma absent_bag_requests_undefined_witness :
  upstream_calls
    (trace (CallTool Sample.platform Sample.upstream_down "get_async_operation" JUndefined))
  = [get_request "/operations/undefined"].
Proof.
  destruct (absent_bag_requests_undefined Sample.platform Sample.upstream_down (tool_at 6))
    as [op [Hop Hcalls]].
  - simpl. tauto.
  - discriminate.
  - injection Hop as <-. exact Hcalls.
Defined.

End CompositionExamples.
